(** * Transition projection engine (IBS/CBS/IS, 2026-2033)

    A shallow embedding of [services/transicao_service.py] and
    [services/projecao_rtc_service.py], with the properties of the
    projection engine stated and proved over it.

    Conventions of the embedding.
    - A Python [float] is a binary64 value: Rocq's primitive [float].  The
      integer literal [0] that the code uses as a default ([.get(k, 0)],
      [else 0], the start value of [sum]) is embedded as the float [0]: the
      two compare equal in Python and every mixed operation converts the
      integer to that float first.
    - A Python [str] is a [string] (a sequence of bytes).  The only string
      operations of the engine are the removal of ["."], the slice [[:4]] and
      the comparison with four ASCII digits, on which bytes and code points
      agree.
    - External JSON data is a value of [json]; objects are finite maps.
    - A Python exception is the [Raise] result of the [res] monad. *)

Set Warnings "-inexact-float,-register-all".
From Stdlib Require Import ZArith Floats Ascii String List Sorted Lia.
From stdpp Require Import gmap strings list pretty.
Import ListNotations.

Local Open Scope string_scope.
Local Open Scope Z_scope.

(** ** Exceptions and the error monad *)

Inductive pyexn :=
| AttributeError | TypeError | ValueError | ZeroDivisionError | OverflowError
| ConnectError | TimeoutException | HTTPStatusError | JSONDecodeError.

Inductive res (A : Type) :=
| Ok (a : A)
| Raise (e : pyexn).
Arguments Ok {A} a.
Arguments Raise {A} e.

#[global] Instance res_ret : MRet res := fun A a => Ok a.
#[global] Instance res_bind : MBind res := fun A B f c =>
  match c with
  | Ok a => f a
  | Raise e => Raise e
  end.

#[global] Instance res_fmap : FMap res := fun A B f c =>
  match c with
  | Ok a => Ok (f a)
  | Raise e => Raise e
  end.

Definition is_ok {A} (c : res A) : bool :=
  match c with Ok _ => true | Raise _ => false end.

(** A list comprehension, or a [for] loop that appends one element per
    iteration: the first exception aborts the whole loop. *)
Fixpoint res_mapM {A B} (f : A -> res B) (l : list A) : res (list B) :=
  match l with
  | [] => Ok []
  | a :: l' => b ← f a; bs ← res_mapM f l'; Ok (b :: bs)
  end.

(** ** Python numbers *)

Module Py.

(** Round half to even of the rational [num / den], [den > 0]. *)
Definition round_half_even (num den : Z) : Z :=
  let q := num / den in
  let r := num mod den in
  match 2 * r ?= den with
  | Lt => q
  | Gt => q + 1
  | Eq => if Z.even q then q else q + 1
  end.

(** The binary64 value nearest to [p / q] (ties to even), with sign [s];
    [0 <= p].  The quotient is computed with 64 guard bits and a sticky
    bit, then rounded once by the format's own rounding. *)
Definition nearest_float (s : bool) (p : Z) (q : positive) : spec_float :=
  let k := Z.log2 (Zpos q) + 64 in
  let num := Z.shiftl p k in
  let m := num / Zpos q in
  let sticky := if num mod Zpos q =? 0 then 0 else 1 in
  let t := 2 * m + sticky in
  binary_normalize prec emax (if s then - t else t) (- k - 1) s.

(** [round(x, ndigits)] on a float, [ndigits >= 0]: the exact value of [x]
    is rounded half-even to [ndigits] decimals (the correctly rounded
    decimal string), which is then read back as the nearest float.  Zeros,
    infinities and NaN round to themselves; the sign of [x] is kept. *)
Definition round (x : float) (ndigits : N) : float :=
  match Prim2SF x with
  | S754_finite s m e =>
      let scale := 10 ^ Z.of_N ndigits in
      let n := if 0 <=? e
               then Zpos m * 2 ^ e * scale
               else round_half_even (Zpos m * scale) (2 ^ (- e)) in
      SF2Prim (nearest_float s n (Z.to_pos scale))
  | _ => x
  end.

(** [float(z)] for an integer [z]. *)
Definition float_of_Z (z : Z) : res float :=
  match binary_normalize prec emax z 0 false with
  | S754_infinity _ => Raise OverflowError
  | sf => Ok (SF2Prim sf)
  end.

(** The integer a float is equal to (Python's [==] between [int] and
    [float] compares the exact values). *)
Definition Z_of_float (x : float) : option Z :=
  match Prim2SF x with
  | S754_zero _ => Some 0
  | S754_finite s m e =>
      let v := if 0 <=? e then Some (Zpos m * 2 ^ e)
               else if Zpos m mod 2 ^ (- e) =? 0 then Some (Zpos m / 2 ^ (- e))
               else None in
      (fun z => if s then - z else z) <$> v
  | _ => None
  end.

(** Truth value of a float: [False] for both zeros, [True] otherwise. *)
Definition truthy (x : float) : bool := negb (PrimFloat.eqb x 0).

(** [x / y] raises [ZeroDivisionError] on a zero divisor. *)
Definition truediv (x y : float) : res float :=
  if PrimFloat.eqb y 0 then Raise ZeroDivisionError else Ok (x / y)%float.

(** [sum(...)] of floats: the left-to-right sum from the start value [0].
    (CPython 3.12 and later add a compensation term for the rounding errors
    of the partial sums; the two agree whenever those sums are exact, as on
    the empty list, on a single element and on zeros.) *)
Definition sum (l : list float) : float :=
  fold_left PrimFloat.add l 0%float.

End Py.

(** ** External JSON values *)

Inductive json :=
| JNull
| JBool (b : bool)
| JInt (z : Z)
| JNum (x : float)
| JStr (s : string)
| JArr (l : list json)
| JObj (m : gmap string json).

Module Json.

(** [v.get(k, d)]: only a dict has the method. *)
Definition get (v : json) (k : string) (d : json) : res json :=
  match v with
  | JObj m => Ok (default d (m !! k))
  | _ => Raise AttributeError
  end.

(** Truth value, as [x or 0] tests it. *)
Definition truthy (v : json) : bool :=
  match v with
  | JNull => false
  | JBool b => b
  | JInt z => negb (z =? 0)
  | JNum x => Py.truthy x
  | JStr s => negb (String.eqb s "")
  | JArr l => match l with [] => false | _ => true end
  | JObj m => negb (bool_decide (m = ∅))
  end.

(** [x or 0] *)
Definition or0 (v : json) : json := if truthy v then v else JInt 0.

(** The elements a [for] loop over the value visits. *)
Definition iter (v : json) : res (list json) :=
  match v with
  | JArr l => Ok l
  | JStr s => Ok ((fun c => JStr (String c "")) <$> list_ascii_of_string s)
  | JObj m => Ok (JStr <$> (map_to_list m).*1)
  | _ => Raise TypeError
  end.

(** The integer a value is equal to as a dict key or under [==];
    lists and dicts are unhashable. *)
Definition int_value (v : json) : option Z :=
  match v with
  | JInt z => Some z
  | JBool b => Some (if b then 1 else 0)
  | JNum x => Py.Z_of_float x
  | _ => None
  end.

Definition hashable (v : json) : bool :=
  match v with
  | JArr _ | JObj _ => false
  | _ => true
  end.

End Json.

(** ** Configuration tables of [transicao_service.py] *)

Record ISCategory := {
  cat_prefixes : list string;
  cat_rate : float;
  cat_desc : string;
}.

(** The dict [{"rate": ..., "desc": ...}] that [detectar_is] returns. *)
Record ISInfo := {
  info_rate : float;
  info_desc : string;
}.

Definition IS_CATEGORIES : list ISCategory := [
  {| cat_prefixes := ["2401"; "2402"; "2403"];
     cat_rate := 1.00; cat_desc := "Produtos fumígenos (tabaco/cigarro)" |};
  {| cat_prefixes := ["2203"; "2204"; "2205"; "2206"; "2207"; "2208"];
     cat_rate := 0.20; cat_desc := "Bebidas alcoólicas" |};
  {| cat_prefixes := ["2202"];
     cat_rate := 0.20; cat_desc := "Bebidas açucaradas / energéticas" |};
  {| cat_prefixes := ["8701"; "8702"; "8703"; "8704"; "8705"; "8706"; "8707";
                      "8708"; "8711"];
     cat_rate := 0.07; cat_desc := "Veículos automotores" |};
  {| cat_prefixes := ["8901"; "8902"; "8903"; "8904"; "8905"; "8906"; "8907";
                      "8908"];
     cat_rate := 0.03; cat_desc := "Embarcações" |};
  {| cat_prefixes := ["8801"; "8802"; "8803"; "8804"; "8805"];
     cat_rate := 0.03; cat_desc := "Aeronaves" |};
  {| cat_prefixes := ["9301"; "9302"; "9303"; "9304"; "9305"; "9306"];
     cat_rate := 0.25; cat_desc := "Armas e munições" |};
  {| cat_prefixes := ["2709"; "2710"; "2711"];
     cat_rate := 0.01; cat_desc := "Minerais / combustíveis fósseis" |}
]%float.

Record YearCfg := {
  cfg_ano : Z;
  cfg_fase : string;
  cfg_descricao : string;
  cfg_cbs : float;
  cfg_ibs : float;
  cfg_aplica_is : bool;
  cfg_icms_fator : float;
  cfg_pisCofins_fator : float;
  cfg_ipi_fator : float;
  cfg_fonte : string;
}.

Definition TRANSITION_YEARS : list YearCfg := [
  {| cfg_ano := 2026; cfg_fase := "Fase Piloto";
     cfg_descricao := "IVA simbólico (1%) + ICMS + PIS/COFINS + IPI plenos";
     cfg_cbs := 0.009; cfg_ibs := 0.001; cfg_aplica_is := false;
     cfg_icms_fator := 1.0; cfg_pisCofins_fator := 1.0; cfg_ipi_fator := 1.0;
     cfg_fonte := "api" |};
  {| cfg_ano := 2027; cfg_fase := "Transição Inicial";
     cfg_descricao := "CBS definitiva + ICMS pleno — PIS/COFINS/IPI extintos";
     cfg_cbs := 0.088; cfg_ibs := 0.001; cfg_aplica_is := true;
     cfg_icms_fator := 1.0; cfg_pisCofins_fator := 0.0; cfg_ipi_fator := 0.0;
     cfg_fonte := "simulado" |};
  {| cfg_ano := 2028; cfg_fase := "Transição Inicial";
     cfg_descricao := "CBS definitiva + ICMS pleno — PIS/COFINS/IPI extintos";
     cfg_cbs := 0.088; cfg_ibs := 0.002; cfg_aplica_is := true;
     cfg_icms_fator := 1.0; cfg_pisCofins_fator := 0.0; cfg_ipi_fator := 0.0;
     cfg_fonte := "simulado" |};
  {| cfg_ano := 2029; cfg_fase := "Substituição Gradual (10%)";
     cfg_descricao := "IBS 10% da alíquota cheia — ICMS cai para 90%";
     cfg_cbs := 0.088; cfg_ibs := 0.0177; cfg_aplica_is := true;
     cfg_icms_fator := 0.9; cfg_pisCofins_fator := 0.0; cfg_ipi_fator := 0.0;
     cfg_fonte := "simulado" |};
  {| cfg_ano := 2030; cfg_fase := "Substituição Gradual (20%)";
     cfg_descricao := "IBS 20% da alíquota cheia — ICMS cai para 80%";
     cfg_cbs := 0.088; cfg_ibs := 0.0354; cfg_aplica_is := true;
     cfg_icms_fator := 0.8; cfg_pisCofins_fator := 0.0; cfg_ipi_fator := 0.0;
     cfg_fonte := "simulado" |};
  {| cfg_ano := 2031; cfg_fase := "Substituição Gradual (30%)";
     cfg_descricao := "IBS 30% da alíquota cheia — ICMS cai para 70%";
     cfg_cbs := 0.088; cfg_ibs := 0.0531; cfg_aplica_is := true;
     cfg_icms_fator := 0.7; cfg_pisCofins_fator := 0.0; cfg_ipi_fator := 0.0;
     cfg_fonte := "simulado" |};
  {| cfg_ano := 2032; cfg_fase := "Substituição Gradual (40%)";
     cfg_descricao := "IBS 40% da alíquota cheia — ICMS cai para 60%";
     cfg_cbs := 0.088; cfg_ibs := 0.0708; cfg_aplica_is := true;
     cfg_icms_fator := 0.6; cfg_pisCofins_fator := 0.0; cfg_ipi_fator := 0.0;
     cfg_fonte := "simulado" |};
  {| cfg_ano := 2033; cfg_fase := "Alíquota Cheia";
     cfg_descricao := "Plena vigência do IVA Dual — ICMS e ISS extintos";
     cfg_cbs := 0.088; cfg_ibs := 0.177; cfg_aplica_is := true;
     cfg_icms_fator := 0.0; cfg_pisCofins_fator := 0.0; cfg_ipi_fator := 0.0;
     cfg_fonte := "simulado" |}
]%float.

(** ** [detectar_is] *)

(** [s.replace(".", "")] *)
Fixpoint remove_dots (s : string) : string :=
  match s with
  | EmptyString => EmptyString
  | String c s' =>
      if Ascii.eqb c "."%char then remove_dots s' else String c (remove_dots s')
  end.

(** The slice [s[:n]]. *)
Fixpoint str_take (n : nat) (s : string) : string :=
  match n, s with
  | S n', String c s' => String c (str_take n' s')
  | _, _ => EmptyString
  end.

(** [(ncm or "").replace(".", "")[:4]] *)
Definition prefix4 (ncm : option string) : string :=
  str_take 4 (remove_dots (default "" ncm)).

(** The loop [for cat in cats: if prefix4 in cat["prefixes"]: return ...],
    falling through to [return None]. *)
Fixpoint first_category (p4 : string) (cats : list ISCategory)
  : option ISInfo :=
  match cats with
  | [] => None
  | cat :: cats' =>
      if decide (p4 ∈ cat_prefixes cat)
      then Some {| info_rate := cat_rate cat; info_desc := cat_desc cat |}
      else first_category p4 cats'
  end.

Definition detectar_is (ncm : option string) : option ISInfo :=
  first_category (prefix4 ncm) IS_CATEGORIES.

(** ** Records of the engine *)

(** One element of [itens_input]: the dict of an invoice line, with the
    keys the engine reads, typed as [ItemInput] of [models/schemas.py]
    types them.  A field is [None] when the key is absent. *)
Record Item := {
  it_numero : option Z;
  it_ncm : option string;
  it_descricao : option string;
  it_baseCalculo : option float;
}.

(** The empty dict [{}] used when no line matches. *)
Definition empty_item : Item :=
  {| it_numero := None; it_ncm := None; it_descricao := None;
     it_baseCalculo := None |}.

(** A description: the line's own text, or the label [f"Item {nobj}"]. *)
Inductive label :=
| Text (s : string)
| ItemN (nobj : json).

Record LineResult := {
  lr_numero : json;
  lr_ncm : string;
  lr_descricao : label;
  lr_baseCalculo : float;
  lr_cbs : float;
  lr_ibs : float;
  lr_is : float;
  lr_isInfo : option ISInfo;
  lr_aliqCbs : float;
  lr_aliqIbs : float;
  lr_total : float;
}.

Record Totals := {
  tot_cbs : float;
  tot_ibs : float;
  tot_iva : float;
  tot_is : float;
  tot_icms : float;
  tot_pisCofins : float;
  tot_ipi : float;
  tot_tributosAnteriores : float;
  tot_geral : float;
}.

Record YearResult := {
  yr_ano : Z;
  yr_fase : string;
  yr_descricao : string;
  yr_aliqCbs : float;
  yr_aliqIbs : float;
  yr_aplicaIS : bool;
  yr_fonte : string;
  yr_itens : list LineResult;
  yr_total : Totals;
}.

(** ** Legacy taxes and year totals (the same text in both services) *)

(** [float(ta.get(k, 0))] on the legacy baseline, a dict of floats
    ([TributosAtuais] of [models/schemas.py]). *)
Definition ta_get (ta : gmap string float) (k : string) : float :=
  default 0%float (ta !! k).

Record LegacyBase := {
  v_icms : float;
  v_pisCofins : float;
  v_ipi : float;
}.

(** [ta = tributos_atuais or {}] and the three family totals. *)
Definition legacy_base (tributos_atuais : option (gmap string float))
  : LegacyBase :=
  let ta := default ∅ tributos_atuais in
  {| v_icms := (ta_get ta "vICMS" + ta_get ta "vST" + ta_get ta "vISS")%float;
     v_pisCofins := (ta_get ta "vPIS" + ta_get ta "vCOFINS")%float;
     v_ipi := ta_get ta "vIPI" |}.

(** The residuals of a year and the totals over its lines. *)
Definition year_totals (b : LegacyBase) (cfg : YearCfg)
    (itens_ano : list LineResult) : Totals :=
  let icms_residual := Py.round (v_icms b * cfg_icms_fator cfg) 2 in
  let pisCofins_residual :=
    Py.round (v_pisCofins b * cfg_pisCofins_fator cfg) 2 in
  let ipi_residual := Py.round (v_ipi b * cfg_ipi_fator cfg) 2 in
  let tributos_anteriores :=
    Py.round (icms_residual + pisCofins_residual + ipi_residual) 2 in
  let total_cbs := Py.round (Py.sum (lr_cbs <$> itens_ano)) 2 in
  let total_ibs := Py.round (Py.sum (lr_ibs <$> itens_ano)) 2 in
  let total_is := Py.round (Py.sum (lr_is <$> itens_ano)) 2 in
  let total_iva := Py.round (total_cbs + total_ibs + total_is) 2 in
  let total_geral := Py.round (total_iva + tributos_anteriores) 2 in
  {| tot_cbs := total_cbs; tot_ibs := total_ibs; tot_iva := total_iva;
     tot_is := total_is; tot_icms := icms_residual;
     tot_pisCofins := pisCofins_residual; tot_ipi := ipi_residual;
     tot_tributosAnteriores := tributos_anteriores;
     tot_geral := total_geral |}.

(** ** [transicao_service.py]: one live call and seven projected years *)

(** [calculadora_service.py]: the two hosts of the calculator. *)
Definition ONLINE_URL : string :=
  "https://consumo.tributos.gov.br/servico/calcular-tributos-consumo".
Definition LOCAL_URL : string := "http://localhost:8080".

Section Engine.

(** Python's [float()] applied to a [str]. *)
Variable float_of_str : string -> res float.

(** [BASE_URL = os.getenv("CALCULADORA_URL", ONLINE_URL)] *)
Variable BASE_URL : string.

(** One HTTP exchange of [_post_year]: the POST of a payload to a URL, with
    [raise_for_status()] and [resp.json()].  It yields the decoded body, or
    the exception of the client.  Within one projection every pair of URL
    and payload is posted at most once. *)
Variable http_post : string -> gmap string json -> res json.

(** [float(v)] *)
Definition py_float (v : json) : res float :=
  match v with
  | JNum x => Ok x
  | JInt z => Py.float_of_Z z
  | JBool b => Ok (if b then 1 else 0)%float
  | JStr s => float_of_str s
  | JNull | JArr _ | JObj _ => Raise TypeError
  end.

(** [float(d.get(k, 0))] *)
Definition num_field (d : json) (k : string) : res float :=
  v ← Json.get d k (JInt 0); py_float v.

(** [i.get("numero") == nobj] *)
Definition numero_eq (nobj : json) (i : Item) : bool :=
  match it_numero i with
  | Some z => bool_decide (Json.int_value nobj = Some z)
  | None => match nobj with JNull => true | _ => false end
  end.

Definition _extrair_item_2026 (obj : json) (itens_input : list Item)
  : res LineResult :=
  nobj ← Json.get obj "nObj" (JInt 1);
  trib ← Json.get obj "tribCalc" (JObj ∅);
  ibscbs ← Json.get trib "IBSCBS" (JObj ∅);
  gibscbs ← Json.get ibscbs "gIBSCBS" (JObj ∅);
  vBC ← num_field gibscbs "vBC";
  vIBS ← num_field gibscbs "vIBS";
  gCBS ← Json.get gibscbs "gCBS" (JObj ∅);
  vCBS ← num_field gCBS "vCBS";
  pCBS ← num_field gCBS "pCBS";
  gIBSUF ← Json.get gibscbs "gIBSUF" (JObj ∅);
  pIBSUF ← num_field gIBSUF "pIBSUF";
  gIBSMun ← Json.get gibscbs "gIBSMun" (JObj ∅);
  pIBSMun ← num_field gIBSMun "pIBSMun";
  is_trib ← Json.get trib "IS" (JObj ∅);
  vIS ← num_field is_trib "vIS";
  let inp := default empty_item (find (numero_eq nobj) itens_input) in
  Ok {| lr_numero := nobj;
        lr_ncm := default "" (it_ncm inp);
        lr_descricao := default (ItemN nobj) (Text <$> it_descricao inp);
        lr_baseCalculo := vBC;
        lr_cbs := Py.round vCBS 2;
        lr_ibs := Py.round vIBS 2;
        lr_is := Py.round vIS 2;
        lr_isInfo := None;
        lr_aliqCbs := pCBS;
        lr_aliqIbs := (pIBSUF + pIBSMun)%float;
        lr_total := Py.round (vCBS + vIBS + vIS) 2 |}.

(** The body of the loop [for inp in itens_input] of a projected year. *)
Definition projected_item (cfg : YearCfg) (inp : Item) : LineResult :=
  let cbs_rate := cfg_cbs cfg in
  let ibs_rate := cfg_ibs cfg in
  let aplica_is := cfg_aplica_is cfg in
  let bc := default 0%float (it_baseCalculo inp) in
  let ncm := default "" (it_ncm inp) in
  let nobj := default 1 (it_numero inp) in
  let vCBS := Py.round (bc * cbs_rate) 2 in
  let vIBS := Py.round (bc * ibs_rate) 2 in
  let is_info := if aplica_is then detectar_is (Some ncm) else None in
  let vIS := match is_info with
             | Some info => Py.round (bc * info_rate info) 2
             | None => 0%float
             end in
  {| lr_numero := JInt nobj;
     lr_ncm := ncm;
     lr_descricao := default (ItemN (JInt nobj)) (Text <$> it_descricao inp);
     lr_baseCalculo := bc;
     lr_cbs := vCBS; lr_ibs := vIBS; lr_is := vIS;
     lr_isInfo := is_info;
     lr_aliqCbs := (cbs_rate * 100)%float;
     lr_aliqIbs := (ibs_rate * 100)%float;
     lr_total := Py.round (vCBS + vIBS + vIS) 2 |}.

(** One iteration of [for cfg in TRANSITION_YEARS]. *)
Definition transicao_ano (objetos : json) (itens_input : list Item)
    (b : LegacyBase) (cfg : YearCfg) : res YearResult :=
  let ano := cfg_ano cfg in
  itens_ano ←
    (if ano =? 2026
     then objs ← Json.iter objetos;
          res_mapM (fun obj => _extrair_item_2026 obj itens_input) objs
     else Ok (projected_item cfg <$> itens_input));
  Ok {| yr_ano := ano;
        yr_fase := cfg_fase cfg;
        yr_descricao := cfg_descricao cfg;
        yr_aliqCbs := (cfg_cbs cfg * 100)%float;
        yr_aliqIbs := (cfg_ibs cfg * 100)%float;
        yr_aplicaIS := cfg_aplica_is cfg;
        yr_fonte := cfg_fonte cfg;
        yr_itens := itens_ano;
        yr_total := year_totals b cfg itens_ano |}.

Definition calcular_transicao (resultado_api : json) (itens_input : list Item)
    (tributos_atuais : option (gmap string float)) : res (list YearResult) :=
  let b := legacy_base tributos_atuais in
  objetos ← Json.get resultado_api "objetos" (JArr []);
  res_mapM (transicao_ano objetos itens_input b) TRANSITION_YEARS.

(** ** [projecao_rtc_service.py]: one authoritative call per year *)

(** The loop [for base in urls] of [_post_year]: connection errors and
    timeouts move on to the next host, any other exception propagates, and
    the last connection error is raised when no host is left. *)
Fixpoint post_loop (urls : list string) (last_exc : pyexn)
    (payload : gmap string json) : res json :=
  match urls with
  | [] => Raise last_exc
  | base :: urls' =>
      match http_post (base +:+ "/api/calculadora/regime-geral") payload with
      | Ok body => Ok body
      | Raise ConnectError => post_loop urls' ConnectError payload
      | Raise TimeoutException => post_loop urls' TimeoutException payload
      | Raise e => Raise e
      end
  end.

Definition _post_year (year : Z) (payload : gmap string json) : res json :=
  let urls :=
    BASE_URL :: (if decide (BASE_URL = LOCAL_URL) then [] else [LOCAL_URL]) in
  post_loop urls ConnectError payload.

(** [float(d.get(k, 0) or 0)] *)
Definition num_field_or0 (d : json) (k : string) : res float :=
  v ← Json.get d k (JInt 0); py_float (Json.or0 v).

(** [{i.get("numero", idx + 1): i for idx, i in enumerate(itens_input)}],
    from index [idx] on: a later line replaces an earlier one of its number. *)
Fixpoint build_inp_by_num (idx : Z) (itens_input : list Item)
    (acc : gmap Z Item) : gmap Z Item :=
  match itens_input with
  | [] => acc
  | i :: rest =>
      build_inp_by_num (idx + 1) rest
        (<[default (idx + 1) (it_numero i) := i]> acc)
  end.

(** [inp_by_num.get(nobj, {})] *)
Definition inp_lookup (inp_by_num : gmap Z Item) (nobj : json) : res Item :=
  if Json.hashable nobj
  then Ok (default empty_item (z ← Json.int_value nobj; inp_by_num !! z))
  else Raise TypeError.

(** The externally supplied excise amount [vIS] of one result object. *)
Definition rtc_vIS (trib : json) : res float :=
  is_trib ← Json.get trib "IS" (JObj ∅);
  num_field_or0 is_trib "vIS".

(** The body of the loop [for obj in objetos] of [_extrair_itens_rtc]. *)
Definition extrair_item_rtc (inp_by_num : gmap Z Item) (obj : json)
  : res LineResult :=
  nobj ← Json.get obj "nObj" (JInt 1);
  trib ← Json.get obj "tribCalc" (JObj ∅);
  ibscbs ← Json.get trib "IBSCBS" (JObj ∅);
  gibscbs ← Json.get ibscbs "gIBSCBS" (JObj ∅);
  vBC ← num_field_or0 gibscbs "vBC";
  vIBS ← num_field_or0 gibscbs "vIBS";
  gCBS ← Json.get gibscbs "gCBS" (JObj ∅);
  vCBS ← num_field_or0 gCBS "vCBS";
  pCBS ← num_field_or0 gCBS "pCBS";
  gIBSUF ← Json.get gibscbs "gIBSUF" (JObj ∅);
  pIBSUF ← num_field_or0 gIBSUF "pIBSUF";
  gIBSMun ← Json.get gibscbs "gIBSMun" (JObj ∅);
  pIBSMun ← num_field_or0 gIBSMun "pIBSMun";
  vIS ← rtc_vIS trib;
  inp ← inp_lookup inp_by_num nobj;
  let ncm := default "" (it_ncm inp) in
  let is_info := if PrimFloat.ltb 0 vIS then detectar_is (Some ncm) else None in
  Ok {| lr_numero := nobj;
        lr_ncm := ncm;
        lr_descricao := default (ItemN nobj) (Text <$> it_descricao inp);
        lr_baseCalculo := vBC;
        lr_cbs := Py.round vCBS 2;
        lr_ibs := Py.round vIBS 2;
        lr_is := Py.round vIS 2;
        lr_isInfo := is_info;
        lr_aliqCbs := pCBS;
        lr_aliqIbs := (pIBSUF + pIBSMun)%float;
        lr_total := Py.round (vCBS + vIBS + vIS) 2 |}.

Definition _extrair_itens_rtc (objetos : json) (itens_input : list Item)
  : res (list LineResult) :=
  let inp_by_num := build_inp_by_num 0 itens_input ∅ in
  objs ← Json.iter objetos;
  res_mapM (extrair_item_rtc inp_by_num) objs.

(** [round((total / total_bc * 100) if total_bc else 0, 3)] *)
Definition effective_rate (total total_bc : float) : res float :=
  v ← (if Py.truthy total_bc
       then q ← Py.truediv total total_bc; Ok (q * 100)%float
       else Ok 0%float);
  Ok (Py.round v 3).

(** The payload of a year:
    [{**base_payload, "dataHoraEmissao": ..., "itens": ...}] *)
Definition year_payload (base_payload : gmap string json)
    (itens_normalizados : json) (year : Z) : gmap string json :=
  <["itens" := itens_normalizados]>
    (<["dataHoraEmissao" := JStr (pretty year +:+ "-01-01T12:00:00-03:00")]>
       base_payload).

(** The coroutine [_task(cfg)]. *)
Definition _task (base_payload : gmap string json) (itens_normalizados : json)
    (cfg : YearCfg) : res (YearCfg * json) :=
  let year := cfg_ano cfg in
  resultado ←
    _post_year year (year_payload base_payload itens_normalizados year);
  Ok (cfg, resultado).

(** The body of [for pair in pairs] for a pair that is not an exception. *)
Definition projecao_ano (itens_input : list Item) (b : LegacyBase)
    (cfg : YearCfg) (resultado : json) : res YearResult :=
  objetos ← Json.get resultado "objetos" (JArr []);
  itens_ano ← _extrair_itens_rtc objetos itens_input;
  let t := year_totals b cfg itens_ano in
  let total_bc := Py.sum (lr_baseCalculo <$> itens_ano) in
  aliq_cbs_ef ← effective_rate (tot_cbs t) total_bc;
  aliq_ibs_ef ← effective_rate (tot_ibs t) total_bc;
  Ok {| yr_ano := cfg_ano cfg;
        yr_fase := cfg_fase cfg;
        yr_descricao := cfg_descricao cfg;
        yr_aliqCbs := aliq_cbs_ef;
        yr_aliqIbs := aliq_ibs_ef;
        yr_aplicaIS := cfg_aplica_is cfg;
        yr_fonte := "api-rtc";
        yr_itens := itens_ano;
        yr_total := t |}.

(** The loop [for pair in pairs]: an exception is skipped. *)
Fixpoint collect_years (itens_input : list Item) (b : LegacyBase)
    (pairs : list (res (YearCfg * json))) : res (list YearResult) :=
  match pairs with
  | [] => Ok []
  | Raise _ :: rest => collect_years itens_input b rest
  | Ok (cfg, resultado) :: rest =>
      y ← projecao_ano itens_input b cfg resultado;
      ys ← collect_years itens_input b rest;
      Ok (y :: ys)
  end.

(** [asyncio.gather] with [return_exceptions=True] returns, in the order of
    the tasks, the value of each task or the exception it raised. *)
Definition calcular_projecao_rtc (base_payload : gmap string json)
    (itens_normalizados : json) (itens_input : list Item)
    (tributos_atuais : option (gmap string float)) : res (list YearResult) :=
  let b := legacy_base tributos_atuais in
  let pairs := _task base_payload itens_normalizados <$> TRANSITION_YEARS in
  collect_years itens_input b pairs.

End Engine.

(** ** The classifier as the specification words it

    "Strip non-alphanumeric separators, take the first 4 characters, scan
    the category list in its defined order."  Kept apart from [detectar_is]
    to be compared with it. *)

Definition is_separator (c : ascii) : bool :=
  let n := nat_of_ascii c in
  (n <? 128)%nat &&
  negb (((48 <=? n) && (n <=? 57)) || ((65 <=? n) && (n <=? 90))
        || ((97 <=? n) && (n <=? 122)))%nat.

Fixpoint strip_separators (s : string) : string :=
  match s with
  | EmptyString => EmptyString
  | String c s' =>
      if is_separator c then strip_separators s'
      else String c (strip_separators s')
  end.

Definition classifier_as_specified (ncm : option string) : option ISInfo :=
  first_category (str_take 4 (strip_separators (default "" ncm))) IS_CATEGORIES.

(** ** Shapes of external data *)

(** The dict found under [k], or the empty dict the code substitutes. *)
Definition sub_dict (d : json) (k : string) : json :=
  match d with
  | JObj m => default (JObj ∅) (m !! k)
  | _ => JObj ∅
  end.

Definition is_dict (v : json) : bool :=
  match v with JObj _ => true | _ => false end.

(** The key is absent from the dict. *)
Definition missing (d : json) (k : string) : Prop :=
  match d with
  | JObj m => m !! k = None
  | _ => False
  end.

(** The key is absent, or holds a value that [float()] converts. *)
Definition number_or_missing (float_of_str : string -> res float)
    (d : json) (k : string) : bool :=
  match d with
  | JObj m =>
      match m !! k with
      | None => true
      | Some v => is_ok (py_float float_of_str v)
      end
  | _ => false
  end.

(** The key is absent, or holds a value that can be looked up in a dict
    (a number, a string, a boolean or null). *)
Definition hashable_or_missing (d : json) (k : string) : bool :=
  match d with
  | JObj m =>
      match m !! k with None => true | Some v => Json.hashable v end
  | _ => false
  end.

(** A line result of the calculator in which every field the extractors
    read is either absent or of the expected kind: the line number a
    scalar, the containers dicts, the amounts and rates convertible. *)
Definition well_shaped (float_of_str : string -> res float) (obj : json)
  : bool :=
  let trib := sub_dict obj "tribCalc" in
  let gibscbs := sub_dict (sub_dict trib "IBSCBS") "gIBSCBS" in
  let gCBS := sub_dict gibscbs "gCBS" in
  let num := number_or_missing float_of_str in
  hashable_or_missing obj "nObj"
  && is_dict trib && is_dict (sub_dict trib "IBSCBS") && is_dict gibscbs
  && is_dict gCBS && is_dict (sub_dict gibscbs "gIBSUF")
  && is_dict (sub_dict gibscbs "gIBSMun") && is_dict (sub_dict trib "IS")
  && num gibscbs "vBC" && num gibscbs "vIBS"
  && num gCBS "vCBS" && num gCBS "pCBS"
  && num (sub_dict gibscbs "gIBSUF") "pIBSUF"
  && num (sub_dict gibscbs "gIBSMun") "pIBSMun"
  && num (sub_dict trib "IS") "vIS".

(** ** Instances for the examples *)

Fixpoint digits_value (s : string) (acc : Z) : option Z :=
  match s with
  | EmptyString => Some acc
  | String c s' =>
      let n := Z.of_nat (nat_of_ascii c) in
      if (48 <=? n) && (n <=? 57) then digits_value s' (10 * acc + (n - 48))
      else None
  end.

Fixpoint split_dot (s : string) : string * option string :=
  match s with
  | EmptyString => (EmptyString, None)
  | String c s' =>
      if Ascii.eqb c "."%char then (EmptyString, Some s')
      else let '(a, b) := split_dot s' in (String c a, b)
  end.

(** [float()] on plain decimal numerals ([-12.50], [.5], [3.]); an instance
    of [float_of_str] for the examples, which rejects every other string. *)
Definition float_of_decimal (s : string) : res float :=
  let '(neg, body) :=
    match s with
    | String "-"%char s' => (true, s')
    | String "+"%char s' => (false, s')
    | _ => (false, s)
    end in
  let '(ip, fp) := split_dot body in
  let fp := default EmptyString fp in
  if (String.length ip + String.length fp =? 0)%nat then Raise ValueError
  else match digits_value (ip +:+ fp) 0 with
       | Some n =>
           Ok (SF2Prim (Py.nearest_float neg n
                          (Z.to_pos (10 ^ Z.of_nat (String.length fp)))))
       | None => Raise ValueError
       end.

(** A line of tobacco ([2401]) with base 1000.00. *)
Definition tobacco_line : Item :=
  {| it_numero := Some 1; it_ncm := Some "2401"; it_descricao := None;
     it_baseCalculo := Some 1000%float |}.

(** A result object of the calculator for line 1, with excise [vIS]. *)
Definition rtc_object (vIS : json) : json :=
  JObj {[ "nObj" := JInt 1;
          "tribCalc" := JObj {[
            "IBSCBS" := JObj {[ "gIBSCBS" := JObj {[
               "vBC" := JStr "1000.00"; "vIBS" := JStr "1.00";
               "gCBS" := JObj {[ "vCBS" := JStr "9.00"; "pCBS" := JStr "0.90" ]};
               "gIBSUF" := JObj {[ "pIBSUF" := JStr "0.10" ]};
               "gIBSMun" := JObj {[ "pIBSMun" := JStr "0.00" ]} ]} ]};
            "IS" := JObj {[ "vIS" := vIS ]} ]} ]}.

Definition rtc_response (vIS : json) : json :=
  JObj {[ "objetos" := JArr [rtc_object vIS] ]}.

(** A result object that carries only its line number. *)
Definition bare_object : json := JObj {[ "nObj" := JInt 1 ]}.

Definition bare_response : json := JObj {[ "objetos" := JArr [bare_object] ]}.

(** A network in which the local host is down and the online host fails
    for 2028 (connection error) and 2031 (HTTP status error). *)
Definition flaky_net (url : string) (payload : gmap string json) : res json :=
  if decide (url = LOCAL_URL +:+ "/api/calculadora/regime-geral")
  then Raise TimeoutException
  else match payload !! "dataHoraEmissao" with
       | Some (JStr "2028-01-01T12:00:00-03:00") => Raise ConnectError
       | Some (JStr "2031-01-01T12:00:00-03:00") => Raise HTTPStatusError
       | _ => Ok (rtc_response (JStr "5.00"))
       end.

(** The legacy baseline [{icms: 500, pis: 100, cofins: 50, ipi: 0}]. *)
Definition baseline_500 : gmap string float :=
  {[ "vICMS" := 500%float; "vPIS" := 100%float; "vCOFINS" := 50%float;
     "vIPI" := 0%float ]}.

(** ** Statements shared by the two modes *)

(** The calls of a projection that returned a result, in schedule order. *)
Definition successes {A} (pairs : list (res A)) : list A :=
  omap (fun p => match p with Ok a => Some a | Raise _ => None end) pairs.

(** The totals of a year entry, as sums over its own line results. *)
Definition totals_identity (y : YearResult) : Prop :=
  let t := yr_total y in
  tot_cbs t = Py.round (Py.sum (lr_cbs <$> yr_itens y)) 2
  /\ tot_ibs t = Py.round (Py.sum (lr_ibs <$> yr_itens y)) 2
  /\ tot_is t = Py.round (Py.sum (lr_is <$> yr_itens y)) 2
  /\ tot_iva t = Py.round (tot_cbs t + tot_ibs t + tot_is t) 2
  /\ tot_geral t = Py.round (tot_iva t + tot_tributosAnteriores t) 2.

(** The summed totals of a year entry are all zero. *)
Definition zero_totals (y : YearResult) : Prop :=
  let t := yr_total y in
  tot_cbs t = 0%float /\ tot_ibs t = 0%float /\ tot_is t = 0%float
  /\ tot_iva t = 0%float.

(** The result carries no object: the key is absent or holds [[]]. *)
Definition no_objects (resultado : json) : Prop :=
  exists m, resultado = JObj m
    /\ (m !! "objetos" = None \/ m !! "objetos" = Some (JArr [])).

(** The excise amount that [_extrair_item_2026] reads in a result object:
    [obj.get("tribCalc", {}).get("IS", {}).get("vIS", 0)] as a float. *)
Definition live_vIS (float_of_str : string -> res float) (obj : json)
  : res float :=
  trib ← Json.get obj "tribCalc" (JObj ∅);
  is_trib ← Json.get trib "IS" (JObj ∅);
  num_field float_of_str is_trib "vIS".

(** The excise amount that [_extrair_itens_rtc] reads in a result object. *)
Definition object_vIS_rtc (float_of_str : string -> res float) (obj : json)
  : res float :=
  trib ← Json.get obj "tribCalc" (JObj ∅);
  rtc_vIS float_of_str trib.

(** "The year-2026 entry has an excise amount of 0 on every line and an
    excise total of 0." *)
Definition excise_free_2026 (anos : list YearResult) : Prop :=
  forall y, y ∈ anos -> yr_ano y = 2026 ->
    Forall (fun r => lr_is r = 0%float) (yr_itens y)
    /\ tot_is (yr_total y) = 0%float.

(** Every numeric field that is missing from the result object [obj] is
    taken as 0 in the line result [r]. *)
Definition zero_defaults (obj : json) (r : LineResult) : Prop :=
  let trib := sub_dict obj "tribCalc" in
  let gibscbs := sub_dict (sub_dict trib "IBSCBS") "gIBSCBS" in
  let gCBS := sub_dict gibscbs "gCBS" in
  let gIBSUF := sub_dict gibscbs "gIBSUF" in
  let gIBSMun := sub_dict gibscbs "gIBSMun" in
  let is_trib := sub_dict trib "IS" in
  (missing gibscbs "vBC" -> lr_baseCalculo r = 0%float)
  /\ (missing gCBS "vCBS" -> lr_cbs r = 0%float)
  /\ (missing gibscbs "vIBS" -> lr_ibs r = 0%float)
  /\ (missing is_trib "vIS" -> lr_is r = 0%float)
  /\ (missing gCBS "pCBS" -> lr_aliqCbs r = 0%float)
  /\ (missing gIBSUF "pIBSUF" ->
      exists pIBSMun, lr_aliqIbs r = (0 + pIBSMun)%float)
  /\ (missing gIBSMun "pIBSMun" ->
      exists pIBSUF, lr_aliqIbs r = (pIBSUF + 0)%float)
  /\ (missing gIBSUF "pIBSUF" -> missing gIBSMun "pIBSMun" ->
      lr_aliqIbs r = 0%float)
  /\ (missing gCBS "vCBS" -> missing gibscbs "vIBS" -> missing is_trib "vIS" ->
      lr_total r = 0%float).

(** * The callers: [calculadora_service.py] and [routers/calculadora.py] *)

(** ** Request models of [models/schemas.py] *)

(** The fields typed [float] hold floats.  (An amount left at its default
    is the integer [0] in Python; it is the float [0] here, which is what
    [float()] makes of it wherever the services read it.) *)

Record ImpostoSeletivoInput := {
  is_cst : string;
  is_baseCalculo : float;
  is_cClassTrib : string;
  is_unidade : string;
  is_quantidade : float;
  is_impostoInformado : float;
}.

Record TributacaoRegularInput := {
  tr_cst : string;
  tr_cClassTrib : string;
}.

Record ItemInput := {
  ii_numero : Z;
  ii_ncm : string;
  ii_nbs : option string;
  ii_quantidade : float;
  ii_unidade : string;
  ii_cst : string;
  ii_baseCalculo : float;
  ii_cClassTrib : string;
  ii_descricao : option string;
  ii_tributacaoRegular : option TributacaoRegularInput;
  ii_impostoSeletivo : option ImpostoSeletivoInput;
}.

Record TributosAtuais := {
  ta_vICMS : float;
  ta_vST : float;
  ta_vIPI : float;
  ta_vPIS : float;
  ta_vCOFINS : float;
  ta_vISS : float;
}.

Record NotaFiscalInput := {
  nf_id : string;
  nf_versao : string;
  nf_dataHoraEmissao : string;
  nf_municipio : Z;
  nf_uf : string;
  nf_itens : list ItemInput;
  nf_tributosAtuais : option TributosAtuais;
}.

(** [model_dump(exclude_none=True)]: a key whose value is [None] is left
    out. *)
Definition put_opt (k : string) (v : option json) (m : gmap string json)
  : gmap string json :=
  match v with
  | Some j => <[k := j]> m
  | None => m
  end.

Definition dump_tributacaoRegular (t : TributacaoRegularInput) : json :=
  JObj {[ "cst" := JStr (tr_cst t); "cClassTrib" := JStr (tr_cClassTrib t) ]}.

Definition dump_impostoSeletivo (i : ImpostoSeletivoInput) : json :=
  JObj {[ "cst" := JStr (is_cst i);
          "baseCalculo" := JNum (is_baseCalculo i);
          "cClassTrib" := JStr (is_cClassTrib i);
          "unidade" := JStr (is_unidade i);
          "quantidade" := JNum (is_quantidade i);
          "impostoInformado" := JNum (is_impostoInformado i) ]}.

Definition dump_item (i : ItemInput) : gmap string json :=
  put_opt "nbs" (JStr <$> ii_nbs i)
    (put_opt "descricao" (JStr <$> ii_descricao i)
       (put_opt "tributacaoRegular"
          (dump_tributacaoRegular <$> ii_tributacaoRegular i)
          (put_opt "impostoSeletivo"
             (dump_impostoSeletivo <$> ii_impostoSeletivo i)
             {[ "numero" := JInt (ii_numero i);
                "ncm" := JStr (ii_ncm i);
                "quantidade" := JNum (ii_quantidade i);
                "unidade" := JStr (ii_unidade i);
                "cst" := JStr (ii_cst i);
                "baseCalculo" := JNum (ii_baseCalculo i);
                "cClassTrib" := JStr (ii_cClassTrib i) ]}))).

(** [TributosAtuais.model_dump()]: the six amounts, as the baseline of the
    two services. *)
Definition dump_tributosAtuais (t : TributosAtuais) : gmap string float :=
  {[ "vICMS" := ta_vICMS t; "vST" := ta_vST t; "vIPI" := ta_vIPI t;
     "vPIS" := ta_vPIS t; "vCOFINS" := ta_vCOFINS t; "vISS" := ta_vISS t ]}.

(** The dict [i.model_dump(exclude_none=True)] of a line, through the keys
    that the two services read. *)
Definition item_view (i : ItemInput) : Item :=
  {| it_numero := Some (ii_numero i);
     it_ncm := Some (ii_ncm i);
     it_descricao := ii_descricao i;
     it_baseCalculo := Some (ii_baseCalculo i) |}.

(** The loop [item.pop("descricao", None); item.pop("nbs", None)]. *)
Definition strip_item (m : gmap string json) : gmap string json :=
  delete "nbs" (delete "descricao" m).

(** [nota.model_dump(exclude_none=True)] *)
Definition dump_nota (nota : NotaFiscalInput) : gmap string json :=
  put_opt "tributosAtuais"
    ((fun t => JObj (JNum <$> dump_tributosAtuais t))
       <$> nf_tributosAtuais nota)
    {[ "id" := JStr (nf_id nota);
       "versao" := JStr (nf_versao nota);
       "dataHoraEmissao" := JStr (nf_dataHoraEmissao nota);
       "municipio" := JInt (nf_municipio nota);
       "uf" := JStr (nf_uf nota);
       "itens" := JArr ((fun i => JObj (dump_item i)) <$> nf_itens nota) ]}.

(** The dicts of [nota_dict["itens"]] after the loop that strips them. *)
Definition payload_itens (nota : NotaFiscalInput) : list (gmap string json) :=
  (fun i => strip_item (dump_item i)) <$> nf_itens nota.

(** [nota_dict] after [nota_dict.pop("tributosAtuais", None)] and the loop
    that strips its items in place. *)
Definition nota_dict (nota : NotaFiscalInput) : gmap string json :=
  <["itens" := JArr (JObj <$> payload_itens nota)]>
    (delete "tributosAtuais" (dump_nota nota)).

(** [_base_payload], with [now] the value of [_data_atual_br()]. *)
Definition _base_payload (now : string) (nota_dict : gmap string json)
  : gmap string json :=
  <["dataHoraEmissao" := JStr now]> (delete "itens" nota_dict).

(** The list comprehensions of [calcular_rtc] that renumber the lines
    1, 2, 3, ... from index [idx] on: the dicts sent to the calculator and
    the dicts kept for display. *)
Fixpoint renumber_payload (idx : Z) (itens : list (gmap string json))
  : list json :=
  match itens with
  | [] => []
  | item :: rest =>
      JObj (<["numero" := JInt (idx + 1)]> item)
      :: renumber_payload (idx + 1) rest
  end.

Fixpoint renumber_input (idx : Z) (itens : list ItemInput) : list Item :=
  match itens with
  | [] => []
  | i :: rest =>
      {| it_numero := Some (idx + 1);
         it_ncm := it_ncm (item_view i);
         it_descricao := it_descricao (item_view i);
         it_baseCalculo := it_baseCalculo (item_view i) |}
      :: renumber_input (idx + 1) rest
  end.

(** ** Formatting *)

Definition two_digits (n : Z) : string :=
  (if n <? 10 then "0" else "") +:+ pretty n.

(** [f"{x:.2f}"]: the exact value of [x] rounded half-even to 2 decimals,
    written with all its digits. *)
Definition format_2f (x : float) : string :=
  match Prim2SF x with
  | S754_nan => "nan"
  | S754_infinity s => if s then "-inf" else "inf"
  | S754_zero s => if s then "-0.00" else "0.00"
  | S754_finite s m e =>
      let n := if 0 <=? e
               then Zpos m * 2 ^ e * 100
               else Py.round_half_even (Zpos m * 100) (2 ^ (- e)) in
      (if s then "-" else "") +:+ pretty (n / 100) +:+ "."
        +:+ two_digits (n mod 100)
  end.

(** The response of an endpoint: [CalculoResponse(success=True, data=...)],
    or the [HTTPException] that the handlers raise.  [Upstream] is the
    status code of the calculator's own error response. *)
Inductive status :=
| Upstream
| Code (n : Z).

Inductive response (A : Type) :=
| Success (data : A)
| HTTPException (status_code : status).
Arguments Success {A} data.
Arguments HTTPException {A} status_code.

(** The three handlers [except httpx.HTTPStatusError], [except
    httpx.ConnectError] and [except Exception], in this order. *)
Definition error_status (e : pyexn) : status :=
  match e with
  | HTTPStatusError => Upstream
  | ConnectError => Code 503
  | _ => Code 500
  end.

Definition respond {A} (c : res A) : response A :=
  match c with
  | Ok data => Success data
  | Raise e => HTTPException (error_status e)
  end.

Record CalcData := {
  cd_resultado2026 : json;
  cd_transicao : list YearResult;
  cd_fonte : string;
  cd_metodo : option string;
}.

Section Router.

Variable float_of_str : string -> res float.

(** Python's [str()] applied to a [float]. *)
Variable str_of_float : float -> string.

Variable BASE_URL : string.
Variable http_post : string -> gmap string json -> res json.

(** The value of [_data_atual_br()] when the request is served. *)
Variable now : string.

(** [calcular_tributos] of [calculadora_service.py]: the hosts are tried as
    in [_post_year], each through [_post]. *)
Definition calcular_tributos (payload : gmap string json) : res json :=
  let urls :=
    BASE_URL :: (if decide (BASE_URL = LOCAL_URL) then [] else [LOCAL_URL]) in
  post_loop http_post urls ConnectError payload.

(** *** [_aggregate_total] *)

Record Sums := {
  total_bc : float;
  total_ibs : float;
  total_cbs : float;
  total_is : float;
}.

(** The body of the loop [for obj in objetos]. *)
Definition aggregate_step (acc : Sums) (obj : json) : res Sums :=
  trib ← Json.get obj "tribCalc" (JObj ∅);
  ibscbs ← Json.get trib "IBSCBS" (JObj ∅);
  gibscbs ← Json.get ibscbs "gIBSCBS" (JObj ∅);
  vBC ← num_field_or0 float_of_str gibscbs "vBC";
  vIBS ← num_field_or0 float_of_str gibscbs "vIBS";
  gCBS ← Json.get gibscbs "gCBS" (JObj ∅);
  vCBS ← num_field_or0 float_of_str gCBS "vCBS";
  is_trib ← Json.get trib "IS" (JObj ∅);
  vIS ← num_field_or0 float_of_str is_trib "vIS";
  Ok {| total_bc := (total_bc acc + vBC)%float;
        total_ibs := (total_ibs acc + vIBS)%float;
        total_cbs := (total_cbs acc + vCBS)%float;
        total_is := (total_is acc + vIS)%float |}.

Fixpoint aggregate_loop (acc : Sums) (objetos : list json) : res Sums :=
  match objetos with
  | [] => Ok acc
  | obj :: rest => acc' ← aggregate_step acc obj; aggregate_loop acc' rest
  end.

(** The dict that [_aggregate_total] returns for the four sums. *)
Definition total_dict (s : Sums) : json :=
  JObj {[ "tribCalc" := JObj {[ "IBSCBSTot" := JObj {[
    "vBCIBSCBS" := JStr (format_2f (total_bc s));
    "gIBS" := JObj {[ "vIBS" := JStr (format_2f (total_ibs s)) ]};
    "gCBS" := JObj {[ "vCBS" := JStr (format_2f (total_cbs s)) ]};
    "gIS" := JObj {[ "vIS" := JStr (format_2f (total_is s)) ]} ]} ]} ]}.

Definition _aggregate_total (objetos : list json) : res json :=
  s ← aggregate_loop
        {| total_bc := 0; total_ibs := 0; total_cbs := 0; total_is := 0 |}
        objetos;
  Ok (total_dict s).

(** *** [_calcular_por_item] *)

(** The loop [for item_dict in itens], [all_objetos] being the list built so
    far: one call per line, whose objects are appended. *)
Fixpoint por_item_loop (base : gmap string json) (itens : list json)
    (all_objetos : list json) : res (list json) :=
  match itens with
  | [] => Ok all_objetos
  | item_dict :: rest =>
      let payload := <["itens" := JArr [item_dict]]> base in
      result ← calcular_tributos payload;
      objetos ← Json.get result "objetos" (JArr []);
      new ← Json.iter objetos;
      por_item_loop base rest (all_objetos ++ new)%list
  end.

Definition _calcular_por_item (base : gmap string json) (itens : list json)
  : res json :=
  all_objetos ← por_item_loop base itens [];
  total ← _aggregate_total all_objetos;
  Ok (JObj {[ "objetos" := JArr all_objetos; "total" := total ]}).

(** *** The endpoints *)

(** ["online" if BASE_URL == ONLINE_URL else "local"] *)
Definition fonte : string :=
  if decide (BASE_URL = ONLINE_URL) then "online" else "local".

(** [nota.tributosAtuais.model_dump() if nota.tributosAtuais else None] *)
Definition tributos_atuais_of (nota : NotaFiscalInput)
  : option (gmap string float) :=
  dump_tributosAtuais <$> nf_tributosAtuais nota.

(** The endpoint [POST /api/calcular]. *)
Definition calcular (nota : NotaFiscalInput) : response CalcData :=
  respond (
    let base := _base_payload now (nota_dict nota) in
    let itens := JObj <$> payload_itens nota in
    resultado_api ← _calcular_por_item base itens;
    let itens_enriquecidos := item_view <$> nf_itens nota in
    transicao ← calcular_transicao float_of_str resultado_api
                  itens_enriquecidos (tributos_atuais_of nota);
    Ok {| cd_resultado2026 := resultado_api;
          cd_transicao := transicao;
          cd_fonte := fonte;
          cd_metodo := None |}).

(** [str(x)] of a total of the lines [itens]: the total of no line is the
    integer [0], of which [str] is ["0"]. *)
Definition str_total (itens : list LineResult) (x : float) : string :=
  match itens with
  | [] => "0"
  | _ => str_of_float x
  end.

(** The object that [calcular_rtc] rebuilds for one line of the first
    returned year. *)
Definition rebuilt_object (it : LineResult) : json :=
  JObj {[ "nObj" := lr_numero it;
          "tribCalc" := JObj {[
            "IBSCBS" := JObj {[ "gIBSCBS" := JObj {[
              "vBC" := JStr (str_of_float (lr_baseCalculo it));
              "vIBS" := JStr (str_of_float (lr_ibs it));
              "gCBS" := JObj {[
                "vCBS" := JStr (str_of_float (lr_cbs it));
                "pCBS" := JStr (str_of_float (lr_aliqCbs it)) ]} ]} ]};
            "IS" := JObj {[ "vIS" := JStr (str_of_float (lr_is it)) ]} ]} ]}.

(** [resultado2026], from the list of returned years. *)
Definition rebuilt_resultado2026 (transicao : list YearResult) : json :=
  match transicao with
  | [] => JObj {[ "objetos" := JArr []; "total" := JObj ∅ ]}
  | first :: _ =>
      let itens := yr_itens first in
      JObj {[
        "objetos" := JArr (rebuilt_object <$> itens);
        "total" := JObj {[ "tribCalc" := JObj {[ "IBSCBSTot" := JObj {[
          "vBCIBSCBS" :=
            JStr (str_total itens (Py.sum (lr_baseCalculo <$> itens)));
          "gIBS" := JObj {[
            "vIBS" := JStr (str_total itens (tot_ibs (yr_total first))) ]};
          "gCBS" := JObj {[
            "vCBS" := JStr (str_total itens (tot_cbs (yr_total first))) ]};
          "gIS" := JObj {[
            "vIS" := JStr (str_total itens (tot_is (yr_total first))) ]}
        ]} ]} ]} ]}
  end.

(** The endpoint [POST /api/calcular-rtc]. *)
Definition calcular_rtc (nota : NotaFiscalInput) : response CalcData :=
  respond (
    let base := _base_payload now (nota_dict nota) in
    let itens_normalizados := JArr (renumber_payload 0 (payload_itens nota)) in
    let itens_input := renumber_input 0 (nf_itens nota) in
    transicao ← calcular_projecao_rtc float_of_str BASE_URL http_post base
                  itens_normalizados itens_input (tributos_atuais_of nota);
    Ok {| cd_resultado2026 := rebuilt_resultado2026 transicao;
          cd_transicao := transicao;
          cd_fonte := fonte;
          cd_metodo := Some "rtc" |}).

End Router.

(** ** The other calls of [calculadora_service.py] and their routes *)

(** The loop [for base in urls] that every function of
    [calculadora_service.py] repeats around its request: [attempt base] is
    the body of the [try]. *)
Fixpoint try_hosts {A} (attempt : string -> res A) (urls : list string)
    (last_error : pyexn) : res A :=
  match urls with
  | [] => Raise last_error
  | base :: urls' =>
      match attempt base with
      | Ok a => Ok a
      | Raise ConnectError => try_hosts attempt urls' ConnectError
      | Raise TimeoutException => try_hosts attempt urls' TimeoutException
      | Raise e => Raise e
      end
  end.

(** A response that passed [raise_for_status()]: the value of
    [resp.headers.get("content-type", "")], [resp.text], and the outcome of
    [resp.json()]. *)
Record HttpResponse := {
  content_type : string;
  text : string;
  json_body : res json;
}.

(** [sub in s] on strings. *)
Definition str_contains (sub s : string) : bool :=
  match String.index 0 sub s with
  | Some _ => true
  | None => false
  end.

(** What [gerar_xml_route] returns: the [PlainTextResponse], or a dict. *)
Inductive XmlRouteBody :=
| PlainTextResponse (content media_type : string)
| JsonBody (j : json).

Section Lookups.

Variable BASE_URL : string.

(** One GET exchange with [raise_for_status()] and [resp.json()], for a URL
    and the query parameter [data]. *)
Variable http_get : string -> string -> res json.

(** One POST exchange of [gerar_xml] up to [raise_for_status()]. *)
Variable http_send : string -> json -> res HttpResponse.

(** The value of [_data_atual_br()] when the request is served. *)
Variable now : string.

Definition hosts : list string :=
  BASE_URL :: (if decide (BASE_URL = LOCAL_URL) then [] else [LOCAL_URL]).



(** [gerar_xml] returns [resp.text], a string, or the value of
    [resp.json()]. *)
Definition gerar_xml (payload : json) : res json :=
  try_hosts
    (fun base =>
       resp ← http_send (base +:+ "/api/calculadora/xml/generate") payload;
       if str_contains "xml" (content_type resp)
       then Ok (JStr (text resp))
       else json_body resp)
    hosts ConnectError.



(** [POST /api/gerar-xml]: [isinstance(resultado, str)] decides between the
    two bodies. *)
Definition gerar_xml_route (resultado : json) : response XmlRouteBody :=
  respond (
    resultado ← gerar_xml resultado;
    match resultado with
    | JStr s => Ok (PlainTextResponse s "application/xml")
    | _ => Ok (JsonBody (JObj {[ "success" := JBool true;
                                 "data" := resultado ]}))
    end).

End Lookups.


(** ** Examples for the callers *)

(** A second line with the number of [tobacco_line]: beer ([2203]). *)
Definition beer_line : Item :=
  {| it_numero := Some 1; it_ncm := Some "2203"; it_descricao := Some "Cerveja";
     it_baseCalculo := Some 200%float |}.

(** Two request lines that carry the same [numero]. *)
Definition cigarettes : ItemInput :=
  {| ii_numero := 7; ii_ncm := "2401.10.00"; ii_nbs := Some "1.0101";
     ii_quantidade := 1; ii_unidade := "UN"; ii_cst := "000";
     ii_baseCalculo := 1000; ii_cClassTrib := "000001";
     ii_descricao := Some "Cigarros";
     ii_tributacaoRegular := None; ii_impostoSeletivo := None |}.

Definition beer : ItemInput :=
  {| ii_numero := 7; ii_ncm := "2203.00.00"; ii_nbs := None;
     ii_quantidade := 6; ii_unidade := "UN"; ii_cst := "000";
     ii_baseCalculo := 200; ii_cClassTrib := "000001";
     ii_descricao := None;
     ii_tributacaoRegular := None; ii_impostoSeletivo := None |}.

Definition example_nota : NotaFiscalInput :=
  {| nf_id := "NF-1"; nf_versao := "1.0.0";
     nf_dataHoraEmissao := "2020-05-05T10:00:00-03:00";
     nf_municipio := 3550308; nf_uf := "SP";
     nf_itens := [cigarettes; beer];
     nf_tributosAtuais :=
       Some {| ta_vICMS := 500; ta_vST := 0; ta_vIPI := 0; ta_vPIS := 100;
               ta_vCOFINS := 50; ta_vISS := 0 |} |}.

(** A response with one object for line 1 and one for line 2. *)
Definition two_objects_response : json :=
  JObj {[ "objetos" := JArr [rtc_object (JStr "0.00");
                             JObj {[ "nObj" := JInt 2 ]}] ]}.

(** A network that answers the request dated [date] with [body] and
    refuses every other connection. *)
Definition dated_net (date : string) (body : json) (url : string)
    (payload : gmap string json) : res json :=
  match payload !! "dataHoraEmissao" with
  | Some (JStr s) => if String.eqb s date then Ok body else Raise ConnectError
  | _ => Raise ConnectError
  end.

(** A network in which no host can be reached. *)
Definition down_net (url : string) (payload : gmap string json) : res json :=
  Raise ConnectError.

(** The answers of [POST .../xml/generate]: an XML document whose body is
    not JSON, and a JSON body that is a bare string. *)
Definition xml_answer : HttpResponse :=
  {| content_type := "application/xml;charset=UTF-8";
     text := "<NFe/>";
     json_body := Raise JSONDecodeError |}.

Definition string_answer : HttpResponse :=
  {| content_type := "application/json";
     text := String (ascii_of_nat 34) ("pending" +:+ String (ascii_of_nat 34) "");
     json_body := Ok (JStr "pending") |}.

(** * Properties *)

(** ** The error monad *)

Lemma bind_Ok_inv {A B} (c : res A) (k : A -> res B) (b : B) :
  c ≫= k = Ok b -> exists a, c = Ok a /\ k a = Ok b.
Proof. destruct c as [a|e]; simpl; [eauto | discriminate]. Qed.

(** Splits the hypothesis [c ≫= k = Ok b] into the two steps it records. *)
Ltac bind_inv H :=
  let a := fresh "a" in
  let Ha := fresh "Ha" in
  apply bind_Ok_inv in H; destruct H as (a & Ha & H).

Lemma res_mapM_Forall2 {A B} (f : A -> res B) (l : list A) (bs : list B) :
  res_mapM f l = Ok bs -> Forall2 (fun a b => f a = Ok b) l bs.
Proof.
  revert bs; induction l as [|a l IH]; intros bs H; simpl in H.
  - injection H as <-. constructor.
  - bind_inv H. bind_inv H. injection H as <-. constructor; auto.
Qed.

Lemma res_mapM_total {A B} (f : A -> res B) (P : A -> B -> Prop) (l : list A) :
  Forall (fun a => exists b, f a = Ok b /\ P a b) l ->
  exists bs, res_mapM f l = Ok bs /\ Forall2 P l bs.
Proof.
  induction 1 as [|a l (b & Hb & HP) _ (bs & Hbs & HPs)]; simpl.
  - exists []. split; [reflexivity | constructor].
  - rewrite Hb, Hbs. simpl. exists (b :: bs).
    split; [reflexivity | by constructor].
Qed.

Lemma res_mapM_fmap {A B C} (f : A -> res B) (g : B -> C) (h : A -> C)
    (l : list A) (bs : list B) :
  (forall a b, f a = Ok b -> g b = h a) ->
  res_mapM f l = Ok bs -> g <$> bs = h <$> l.
Proof.
  intros Hg H. apply res_mapM_Forall2 in H.
  induction H as [|a b l k Hab _ IH]; [reflexivity|].
  rewrite !fmap_cons. by rewrite (Hg a b Hab), IH.
Qed.

Lemma is_ok_true {A} (c : res A) : is_ok c = true -> exists a, c = Ok a.
Proof. destruct c; [eauto | discriminate]. Qed.

Lemma Forall2_elem_r {A B} (R : A -> B -> Prop) (l : list A) (k : list B)
    (b : B) :
  Forall2 R l k -> b ∈ k -> exists a, a ∈ l /\ R a b.
Proof.
  induction 1 as [|a b' l k HR _ IH]; intros Hb.
  - inversion Hb.
  - apply elem_of_cons in Hb as [->|Hb].
    + exists a. split; [left | exact HR].
    + destruct (IH Hb) as (a' & Ha' & HR'). exists a'.
      split; [by right | exact HR'].
Qed.

(** ** The model of Python's numbers on known values *)

(** [round] rounds the exact binary value, half to even: 2.675 is stored
    below 2.675, 0.125 and 0.375 are exact ties, and the sign survives. *)
Example round_examples :
  Py.round 2.675 2 = 2.67%float
  /\ Py.round 0.125 2 = 0.12%float
  /\ Py.round 0.375 2 = 0.38%float
  /\ Py.round 1.005 2 = 1%float
  /\ Py.round (-0.001) 2 = (-0)%float
  /\ Py.round 1e300 2 = 1e300%float
  /\ Py.round 0.0005 3 = 0.001%float
  /\ Py.round 0 2 = 0%float.
Proof. repeat split. Qed.

(** [nearest_float] reads decimals as the parser of float literals does. *)
Example nearest_float_examples :
  SF2Prim (Py.nearest_float false 88 1000) = 0.088%float
  /\ SF2Prim (Py.nearest_float false 177 10000) = 0.0177%float
  /\ SF2Prim (Py.nearest_float true 1 3) = (-1 / 3)%float
  /\ Py.float_of_Z 9007199254740993 = Ok 9007199254740992%float
  /\ Py.float_of_Z (2 ^ 1024) = Raise OverflowError.
Proof. repeat split. Qed.

(** ** Structure of the two orchestrators *)

Lemma transicao_ano_inv to_float objetos itens b cfg y :
  transicao_ano to_float objetos itens b cfg = Ok y ->
  yr_ano y = cfg_ano cfg
  /\ yr_total y = year_totals b cfg (yr_itens y)
  /\ yr_aliqCbs y = (cfg_cbs cfg * 100)%float
  /\ yr_aliqIbs y = (cfg_ibs cfg * 100)%float
  /\ (cfg_ano cfg <> 2026 -> yr_itens y = projected_item cfg <$> itens)
  /\ (cfg_ano cfg = 2026 ->
      exists objs, Json.iter objetos = Ok objs
        /\ Forall2 (fun obj r => _extrair_item_2026 to_float obj itens = Ok r)
             objs (yr_itens y)).
Proof.
  unfold transicao_ano. intros H. bind_inv H. injection H as <-. simpl.
  repeat split; try reflexivity.
  - intros Hne. apply Z.eqb_neq in Hne. rewrite Hne in Ha.
    by injection Ha as <-.
  - intros Heq. apply Z.eqb_eq in Heq. rewrite Heq in Ha.
    bind_inv Ha. eauto using res_mapM_Forall2.
Qed.

Lemma calcular_transicao_inv to_float api itens ta anos y :
  calcular_transicao to_float api itens ta = Ok anos -> y ∈ anos ->
  exists objetos cfg,
    Json.get api "objetos" (JArr []) = Ok objetos
    /\ cfg ∈ TRANSITION_YEARS
    /\ transicao_ano to_float objetos itens (legacy_base ta) cfg = Ok y.
Proof.
  unfold calcular_transicao. intros H Hy. bind_inv H.
  apply res_mapM_Forall2 in H.
  destruct (Forall2_elem_r _ _ _ _ H Hy) as (cfg & Hcfg & Hrun). eauto.
Qed.

Lemma projecao_ano_inv to_float itens b cfg resultado y :
  projecao_ano to_float itens b cfg resultado = Ok y ->
  yr_ano y = cfg_ano cfg
  /\ yr_total y = year_totals b cfg (yr_itens y)
  /\ (exists objetos, Json.get resultado "objetos" (JArr []) = Ok objetos
        /\ _extrair_itens_rtc to_float objetos itens = Ok (yr_itens y))
  /\ effective_rate (tot_cbs (yr_total y))
       (Py.sum (lr_baseCalculo <$> yr_itens y)) = Ok (yr_aliqCbs y)
  /\ effective_rate (tot_ibs (yr_total y))
       (Py.sum (lr_baseCalculo <$> yr_itens y)) = Ok (yr_aliqIbs y).
Proof.
  unfold projecao_ano. intros H.
  bind_inv H. bind_inv H. bind_inv H. bind_inv H. injection H as <-. simpl.
  repeat split; eauto.
Qed.

Lemma collect_years_inv to_float itens b pairs anos :
  collect_years to_float itens b pairs = Ok anos ->
  Forall2 (fun p y => projecao_ano to_float itens b p.1 p.2 = Ok y)
    (successes pairs) anos.
Proof.
  revert anos; induction pairs as [|[[cfg r]|e] pairs IH]; intros anos H;
    simpl in H.
  - injection H as <-. constructor.
  - bind_inv H. bind_inv H. injection H as <-.
    unfold successes; simpl. constructor; [exact Ha | by apply IH].
  - by apply IH.
Qed.

Lemma successes_task host net payload norm (cfgs : list YearCfg) p :
  p ∈ successes (_task host net payload norm <$> cfgs) ->
  p.1 ∈ cfgs
  /\ _post_year host net (cfg_ano p.1) (year_payload payload norm (cfg_ano p.1))
     = Ok p.2.
Proof.
  induction cfgs as [|cfg cfgs IH]; unfold successes; simpl.
  - intros H. inversion H.
  - unfold _task at 1.
    destruct (_post_year host net (cfg_ano cfg) _) as [r|e] eqn:E; simpl.
    + intros H. apply elem_of_cons in H as [->|H]; simpl.
      * split; [left | exact E].
      * destruct (IH H). split; [by right | assumption].
    + intros H. destruct (IH H). split; [by right | assumption].
Qed.

Lemma calcular_projecao_rtc_inv to_float host net payload norm itens ta anos y :
  calcular_projecao_rtc to_float host net payload norm itens ta = Ok anos ->
  y ∈ anos ->
  exists cfg resultado,
    cfg ∈ TRANSITION_YEARS
    /\ _post_year host net (cfg_ano cfg) (year_payload payload norm (cfg_ano cfg))
       = Ok resultado
    /\ projecao_ano to_float itens (legacy_base ta) cfg resultado = Ok y.
Proof.
  unfold calcular_projecao_rtc. intros H Hy.
  apply collect_years_inv in H.
  destruct (Forall2_elem_r _ _ _ _ H Hy) as ([cfg r] & Hp & Hrun).
  apply successes_task in Hp as [Hcfg Hpost]. eauto.
Qed.

(** ** C1: the projected years of the single-call mode *)

(** C1.  [calcular_transicao] returns one entry per schedule year.  In
    every entry after 2026 the line results follow the invoice lines one
    for one, and for each line: cbs = round(base * cbs_rate, 2),
    ibs = round(base * ibs_rate, 2),
    is = round(base * rate of the matched category, 2) when the year applies
    the selective tax and [detectar_is] matches, else 0; total is the
    rounding of the sum of these three rounded amounts; and the two rate
    fields are the schedule rates times 100.  For the single line with code
    2401 and base 1000.00, the entry of 2027 has is = 1000, cbs = 88,
    ibs = 1 and total = 1089. *)
Theorem projected_year_lines to_float api itens ta anos :
  calcular_transicao to_float api itens ta = Ok anos ->
  yr_ano <$> anos = cfg_ano <$> TRANSITION_YEARS
  /\ (forall y, y ∈ anos -> yr_ano y <> 2026 ->
     exists cfg, cfg ∈ TRANSITION_YEARS /\ cfg_ano cfg = yr_ano y /\
       Forall2 (fun inp r =>
         let bc := default 0%float (it_baseCalculo inp) in
         let is_info := if cfg_aplica_is cfg
                        then detectar_is (Some (default "" (it_ncm inp)))
                        else None in
         lr_cbs r = Py.round (bc * cfg_cbs cfg) 2
         /\ lr_ibs r = Py.round (bc * cfg_ibs cfg) 2
         /\ lr_isInfo r = is_info
         /\ lr_is r = match is_info with
                      | Some info => Py.round (bc * info_rate info) 2
                      | None => 0%float
                      end
         /\ lr_total r = Py.round (lr_cbs r + lr_ibs r + lr_is r) 2
         /\ lr_aliqCbs r = (cfg_cbs cfg * 100)%float
         /\ lr_aliqIbs r = (cfg_ibs cfg * 100)%float)
         itens (yr_itens y))
  /\ (forall numero descricao y,
        itens = [ {| it_numero := numero; it_ncm := Some "2401";
                     it_descricao := descricao;
                     it_baseCalculo := Some 1000%float |} ] ->
        y ∈ anos -> yr_ano y = 2027 ->
        exists r, yr_itens y = [r]
          /\ lr_is r = 1000%float /\ lr_cbs r = 88%float
          /\ lr_ibs r = 1%float /\ lr_total r = 1089%float).
Proof.
  intros Hrun. split; [|split].
  - unfold calcular_transicao in Hrun. bind_inv Hrun.
    eapply res_mapM_fmap; [|exact Hrun].
    intros cfg y Hy. by apply transicao_ano_inv in Hy as (-> & _).
  - intros y Hy Hne.
    destruct (calcular_transicao_inv _ _ _ _ _ _ Hrun Hy)
      as (objetos & cfg & _ & Hcfg & Hy').
    apply transicao_ano_inv in Hy' as (Hano & _ & _ & _ & Hproj & _).
    exists cfg. split; [exact Hcfg|]. split; [by symmetry|].
    rewrite Hproj by congruence.
    clear. induction itens as [|inp l IH]; constructor; [|exact IH].
    simpl. repeat split; reflexivity.
  - intros numero descricao y -> Hy H2027.
    destruct (calcular_transicao_inv _ _ _ _ _ _ Hrun Hy)
      as (objetos & cfg & _ & Hcfg & Hy').
    apply transicao_ano_inv in Hy' as (Hano & _ & _ & _ & Hproj & _).
    rewrite Hproj by congruence. rewrite H2027 in Hano.
    eexists. split; [reflexivity|].
    unfold TRANSITION_YEARS in Hcfg.
    repeat (apply elem_of_cons in Hcfg as [->|Hcfg]; [try discriminate Hano|]);
      [|inversion Hcfg].
    repeat split; vm_compute; reflexivity.
Qed.

Lemma projected_year_lines_witness :
  exists anos,
    calcular_transicao float_of_decimal (rtc_response (JStr "0.00"))
      [tobacco_line] None = Ok anos
    /\ forall y, y ∈ anos -> yr_ano y = 2027 ->
       exists r, yr_itens y = [r]
         /\ lr_is r = 1000%float /\ lr_cbs r = 88%float
         /\ lr_ibs r = 1%float /\ lr_total r = 1089%float.
Proof.
  eexists. split; [vm_compute; reflexivity|].
  intros y Hy H2027.
  eapply (proj2 (proj2 (projected_year_lines float_of_decimal
                   (rtc_response (JStr "0.00")) [tobacco_line] None _ _)));
    [reflexivity | exact Hy | exact H2027].
  Unshelve. vm_compute; reflexivity.
Defined.

(** ** C2: invariants of the year schedule *)

(** C2.  [TRANSITION_YEARS] has 8 entries, for the years 2026 to 2033 in
    this order, so the years are unique and strictly increasing; from each
    entry to the next, the three decay factors (ICMS, PIS/COFINS, IPI) do
    not increase and the two rates (CBS, IBS) do not decrease; and the
    selective-tax flag is false for the entry of 2026 and for no other. *)
Theorem schedule_invariants :
  length TRANSITION_YEARS = 8%nat
  /\ cfg_ano <$> TRANSITION_YEARS
     = [2026; 2027; 2028; 2029; 2030; 2031; 2032; 2033]
  /\ NoDup (cfg_ano <$> TRANSITION_YEARS)
  /\ Forall (fun '(a, b) =>
       cfg_ano a < cfg_ano b
       /\ PrimFloat.leb (cfg_icms_fator b) (cfg_icms_fator a) = true
       /\ PrimFloat.leb (cfg_pisCofins_fator b) (cfg_pisCofins_fator a) = true
       /\ PrimFloat.leb (cfg_ipi_fator b) (cfg_ipi_fator a) = true
       /\ PrimFloat.leb (cfg_cbs a) (cfg_cbs b) = true
       /\ PrimFloat.leb (cfg_ibs a) (cfg_ibs b) = true)
       (zip TRANSITION_YEARS (tail TRANSITION_YEARS))
  /\ Forall (fun cfg => cfg_aplica_is cfg = false <-> cfg_ano cfg = 2026)
       TRANSITION_YEARS.
Proof.
  split; [reflexivity|]. split; [reflexivity|]. split.
  - apply (bool_decide_unpack _). by vm_compute.
  - split.
    + repeat constructor.
    + repeat constructor; simpl; intros H; discriminate H.
Qed.

(** ** C3: the selective-tax classifier *)

Lemma first_category_Some p cats info :
  first_category p cats = Some info <->
  exists cats1 cat cats2,
    cats = (cats1 ++ cat :: cats2)%list
    /\ p ∈ cat_prefixes cat
    /\ (forall c, c ∈ cats1 -> p ∉ cat_prefixes c)
    /\ info = {| info_rate := cat_rate cat; info_desc := cat_desc cat |}.
Proof.
  induction cats as [|c cats IH]; simpl.
  - split; [discriminate|]. intros (l1 & cat & l2 & H & _). by destruct l1.
  - destruct (decide (p ∈ cat_prefixes c)) as [Hin|Hout].
    + split.
      * intros [= <-]. exists [], c, cats. repeat split; [exact Hin|].
        intros c' Hc'. inversion Hc'.
      * intros (l1 & cat & l2 & Heq & Hcat & Hfirst & ->).
        destruct l1 as [|c' l1]; simpl in Heq.
        -- assert (c = cat) as -> by congruence. reflexivity.
        -- assert (c = c') as -> by congruence.
           exfalso. apply (Hfirst c'); [left | exact Hin].
    + rewrite IH. split.
      * intros (l1 & cat & l2 & -> & Hcat & Hfirst & ->).
        exists (c :: l1), cat, l2. repeat split; [exact Hcat|].
        intros c' Hc'. apply elem_of_cons in Hc' as [->|Hc']; auto.
      * intros (l1 & cat & l2 & Heq & Hcat & Hfirst & ->).
        destruct l1 as [|c' l1]; simpl in Heq.
        -- assert (c = cat) as -> by congruence. contradiction.
        -- assert (cats = (l1 ++ cat :: l2)%list) as -> by congruence.
           exists l1, cat, l2. repeat split; [exact Hcat|].
           intros c'' Hc''. apply Hfirst. by right.
Qed.

Lemma first_category_None p cats :
  first_category p cats = None <-> forall c, c ∈ cats -> p ∉ cat_prefixes c.
Proof.
  induction cats as [|c cats IH]; simpl.
  - split; [|reflexivity]. intros _ c Hc. inversion Hc.
  - destruct (decide (p ∈ cat_prefixes c)) as [Hin|Hout].
    + split; [discriminate|]. intros H. exfalso.
      apply (H c); [left | exact Hin].
    + rewrite IH. split.
      * intros H c' Hc'. apply elem_of_cons in Hc' as [->|Hc']; auto.
      * intros H c' Hc'. apply H. by right.
Qed.

Lemma str_take_length n s :
  String.length (str_take n s) = Nat.min n (String.length s).
Proof.
  revert s; induction n as [|n IH]; intros [|c s]; simpl; try reflexivity.
  by rewrite IH.
Qed.

Lemma prefixes_have_4_chars :
  Forall (fun cat =>
            Forall (fun p => String.length p = 4%nat) (cat_prefixes cat))
    IS_CATEGORIES.
Proof. repeat constructor. Qed.

(** C3, as the code has it.  [detectar_is] is a total function of the code
    (absent, empty, short or malformed alike).  It removes every ["."] from the
    code (and no other character), takes the first 4 characters of what is
    left and returns the first category of [IS_CATEGORIES], in the order of
    the list, whose prefixes contain that value; it returns no category
    when no category contains it, in particular when fewer than 4
    characters are left. *)
Theorem detectar_is_first_match (ncm : option string) :
  let p := str_take 4 (remove_dots (default "" ncm)) in
  (forall info,
     detectar_is ncm = Some info <->
     exists cats1 cat cats2,
       IS_CATEGORIES = (cats1 ++ cat :: cats2)%list
       /\ p ∈ cat_prefixes cat
       /\ (forall c, c ∈ cats1 -> p ∉ cat_prefixes c)
       /\ info = {| info_rate := cat_rate cat; info_desc := cat_desc cat |})
  /\ (detectar_is ncm = None <->
      forall c, c ∈ IS_CATEGORIES -> p ∉ cat_prefixes c)
  /\ ((String.length (remove_dots (default "" ncm)) < 4)%nat ->
      detectar_is ncm = None).
Proof.
  intros p. split; [|split].
  - intros info. apply first_category_Some.
  - apply first_category_None.
  - intros Hshort. apply first_category_None. fold (prefix4 ncm).
    intros c Hc Hp.
    pose proof prefixes_have_4_chars as Hlen.
    rewrite Forall_forall in Hlen. specialize (Hlen c Hc).
    rewrite Forall_forall in Hlen. specialize (Hlen _ Hp).
    unfold prefix4 in Hlen. rewrite str_take_length in Hlen. lia.
Qed.

(** The code 87.11 reaches the vehicles category, the fourth of the list;
    the short code 240 reaches none. *)
Lemma detectar_is_first_match_witness :
  detectar_is (Some "87.11.20") =
    Some {| info_rate := 0.07; info_desc := "Veículos automotores" |}
  /\ detectar_is (Some "240") = None.
Proof.
  split.
  - apply (proj1 (detectar_is_first_match (Some "87.11.20"))).
    eexists (take 3 IS_CATEGORIES), _, (drop 4 IS_CATEGORIES).
    split; [unfold IS_CATEGORIES; simpl; reflexivity|].
    split; [by apply (bool_decide_unpack _)|]. split; [|reflexivity].
    intros c Hc. simpl in Hc.
    repeat (apply elem_of_cons in Hc as [->|Hc];
            [by apply (bool_decide_unpack _)|]).
    inversion Hc.
  - apply (proj2 (proj2 (detectar_is_first_match (Some "240")))). simpl. lia.
Defined.

(** C3 as stated fails: a separator other than ["."] is not removed.  On
    the code 24-01.10 the classifier of the specification's words finds the
    tobacco category, and [detectar_is] finds none. *)
Lemma detectar_is_keeps_other_separators :
  classifier_as_specified (Some "24-01.10") =
    Some {| info_rate := 1;
            info_desc := "Produtos fumígenos (tabaco/cigarro)" |}
  /\ detectar_is (Some "24-01.10") = None
  /\ detectar_is (Some "24-01.10")
     <> classifier_as_specified (Some "24-01.10").
Proof. repeat split. discriminate. Qed.

(** ** C4: the residual of the legacy taxes *)

Lemma float_zero_cases x :
  PrimFloat.eqb x 0 = true -> x = 0%float \/ x = (-0)%float.
Proof.
  rewrite FloatAxioms.eqb_spec. intros H.
  change (Prim2SF 0) with (S754_zero false) in H.
  destruct (Prim2SF x) as [s|s| |s m e] eqn:E.
  - destruct s; [right|left]; apply Prim2SF_inj; rewrite E; reflexivity.
  - destruct s; discriminate H.
  - discriminate H.
  - destruct s; discriminate H.
Qed.

Lemma cfg_cases (P : YearCfg -> Prop) :
  Forall P TRANSITION_YEARS -> forall cfg, cfg ∈ TRANSITION_YEARS -> P cfg.
Proof. intros H cfg Hcfg. rewrite Forall_forall in H. auto. Qed.

(** C4.  In every year entry that [calcular_transicao] returns, with [g k]
    the amount of key [k] in the baseline (0 when the key or the baseline
    is absent): icms = round((g vICMS + g vST + g vISS) * icms_fator, 2),
    pisCofins = round((g vPIS + g vCOFINS) * pisCofins_fator, 2),
    ipi = round(g vIPI * ipi_fator, 2), and tributosAnteriores =
    round(icms + pisCofins + ipi, 2).  When every amount of the baseline is
    zero, the three residuals and their total are zero in every year.  For
    the baseline {icms 500, pis 100, cofins 50, ipi 0} the entry of 2029
    has icms = 450, pisCofins = 0, ipi = 0 and a legacy total of 450. *)
Theorem legacy_residuals to_float api itens ta anos :
  calcular_transicao to_float api itens ta = Ok anos ->
  let g k := ta_get (default ∅ ta) k in
  (forall y, y ∈ anos ->
     exists cfg, cfg ∈ TRANSITION_YEARS /\ cfg_ano cfg = yr_ano y /\
       let t := yr_total y in
       tot_icms t =
         Py.round ((g "vICMS" + g "vST" + g "vISS") * cfg_icms_fator cfg) 2
       /\ tot_pisCofins t =
         Py.round ((g "vPIS" + g "vCOFINS") * cfg_pisCofins_fator cfg) 2
       /\ tot_ipi t = Py.round (g "vIPI" * cfg_ipi_fator cfg) 2
       /\ tot_tributosAnteriores t =
         Py.round (tot_icms t + tot_pisCofins t + tot_ipi t) 2)
  /\ ((forall k, PrimFloat.eqb (g k) 0 = true) ->
      forall y, y ∈ anos ->
        let t := yr_total y in
        PrimFloat.eqb (tot_icms t) 0 = true
        /\ PrimFloat.eqb (tot_pisCofins t) 0 = true
        /\ PrimFloat.eqb (tot_ipi t) 0 = true
        /\ PrimFloat.eqb (tot_tributosAnteriores t) 0 = true)
  /\ (ta = Some baseline_500 ->
      forall y, y ∈ anos -> yr_ano y = 2029 ->
        let t := yr_total y in
        tot_icms t = 450%float /\ tot_pisCofins t = 0%float
        /\ tot_ipi t = 0%float /\ tot_tributosAnteriores t = 450%float).
Proof.
  intros Hrun g.
  assert (Hstep : forall y, y ∈ anos -> exists cfg, cfg ∈ TRANSITION_YEARS
            /\ cfg_ano cfg = yr_ano y
            /\ yr_total y = year_totals (legacy_base ta) cfg (yr_itens y)).
  { intros y Hy.
    destruct (calcular_transicao_inv _ _ _ _ _ _ Hrun Hy)
      as (objetos & cfg & _ & Hcfg & Hy').
    apply transicao_ano_inv in Hy' as (Hano & Htot & _). eauto. }
  split; [|split].
  - intros y Hy. destruct (Hstep y Hy) as (cfg & Hcfg & Hano & Htot).
    exists cfg. split; [exact Hcfg|]. split; [exact Hano|].
    simpl. rewrite Htot. simpl. repeat split; reflexivity.
  - intros Hzero y Hy. destruct (Hstep y Hy) as (cfg & Hcfg & Hano & Htot).
    simpl. rewrite Htot. unfold year_totals, legacy_base; simpl.
    fold (g "vICMS") (g "vST") (g "vISS") (g "vPIS") (g "vCOFINS") (g "vIPI").
    pose proof (float_zero_cases _ (Hzero "vICMS")) as H1.
    pose proof (float_zero_cases _ (Hzero "vST")) as H2.
    pose proof (float_zero_cases _ (Hzero "vISS")) as H3.
    pose proof (float_zero_cases _ (Hzero "vPIS")) as H4.
    pose proof (float_zero_cases _ (Hzero "vCOFINS")) as H5.
    pose proof (float_zero_cases _ (Hzero "vIPI")) as H6.
    clear Htot Hano Hzero Hstep Hrun Hy.
    generalize dependent (g "vICMS"); generalize dependent (g "vST");
      generalize dependent (g "vISS"); generalize dependent (g "vPIS");
      generalize dependent (g "vCOFINS"); generalize dependent (g "vIPI").
    clear g. intros x6 H6 x5 H5 x4 H4 x3 H3 x2 H2 x1 H1.
    revert cfg Hcfg. apply cfg_cases.
    destruct H1 as [-> | ->], H2 as [-> | ->], H3 as [-> | ->],
      H4 as [-> | ->], H5 as [-> | ->], H6 as [-> | ->];
      repeat constructor.
  - intros -> y Hy H2029. destruct (Hstep y Hy) as (cfg & Hcfg & Hano & Htot).
    simpl. rewrite Htot. rewrite H2029 in Hano. clear -Hcfg Hano.
    unfold TRANSITION_YEARS in Hcfg.
    repeat (apply elem_of_cons in Hcfg as [->|Hcfg]; [try discriminate Hano|]);
      [|inversion Hcfg].
    repeat split; vm_compute; reflexivity.
Qed.

Lemma legacy_residuals_witness :
  exists anos,
    calcular_transicao float_of_decimal (rtc_response (JStr "0.00"))
      [tobacco_line] (Some baseline_500) = Ok anos
    /\ forall y, y ∈ anos -> yr_ano y = 2029 ->
         tot_icms (yr_total y) = 450%float
         /\ tot_pisCofins (yr_total y) = 0%float
         /\ tot_ipi (yr_total y) = 0%float
         /\ tot_tributosAnteriores (yr_total y) = 450%float.
Proof.
  eexists. split; [vm_compute; reflexivity|].
  eapply (proj2 (proj2 (legacy_residuals float_of_decimal
                   (rtc_response (JStr "0.00")) [tobacco_line]
                   (Some baseline_500) _ _))); reflexivity.
  Unshelve. vm_compute; reflexivity.
Defined.

(** ** C5: the totals of a year *)

Lemma year_totals_identity b cfg itens y :
  yr_total y = year_totals b cfg itens -> yr_itens y = itens ->
  totals_identity y.
Proof.
  intros Ht <-. unfold totals_identity. rewrite Ht. simpl. repeat split.
Qed.

Lemma year_totals_empty b cfg y :
  yr_total y = year_totals b cfg [] -> zero_totals y.
Proof. intros Ht. unfold zero_totals. rewrite Ht. repeat split. Qed.

Lemma effective_rate_total total total_bc :
  exists v, effective_rate total total_bc = Ok v.
Proof.
  unfold effective_rate, Py.truthy, Py.truediv.
  destruct (PrimFloat.eqb total_bc 0); simpl; eauto.
Qed.

Lemma no_objects_get resultado :
  no_objects resultado -> Json.get resultado "objetos" (JArr []) = Ok (JArr []).
Proof. intros (m & -> & [H|H]); simpl; by rewrite H. Qed.

(** C5.  In every year entry returned by [calcular_transicao] and by
    [calcular_projecao_rtc]: cbs, ibs and is are each the sum of that field
    over the entry's line results, rounded to 2 decimals; iva =
    round(cbs + ibs + is, 2) of these rounded totals; and geral =
    round(iva + tributosAnteriores, 2).  An entry without lines has cbs,
    ibs, is and iva equal to 0.  Neither mode raises on an empty line list:
    [calcular_transicao] with no invoice line and no result object returns
    eight entries without lines, and a year of [calcular_projecao_rtc]
    whose response has no object yields an entry without lines. *)
Theorem year_totals_aggregation :
  (forall to_float api itens ta anos y,
     calcular_transicao to_float api itens ta = Ok anos -> y ∈ anos ->
     totals_identity y /\ (yr_itens y = [] -> zero_totals y))
  /\ (forall to_float host net payload norm itens ta anos y,
        calcular_projecao_rtc to_float host net payload norm itens ta = Ok anos ->
  y ∈ anos ->
        totals_identity y /\ (yr_itens y = [] -> zero_totals y))
  /\ (forall to_float api ta,
        no_objects api ->
        exists anos, calcular_transicao to_float api [] ta = Ok anos
          /\ length anos = 8%nat
          /\ Forall (fun y => yr_itens y = [] /\ zero_totals y) anos)
  /\ (forall to_float itens b cfg resultado,
        no_objects resultado ->
        exists y, projecao_ano to_float itens b cfg resultado = Ok y
          /\ yr_itens y = [] /\ zero_totals y
          /\ yr_aliqCbs y = 0%float /\ yr_aliqIbs y = 0%float).
Proof.
  split; [|split; [|split]].
  - intros to_float api itens ta anos y Hrun Hy.
    destruct (calcular_transicao_inv _ _ _ _ _ _ Hrun Hy)
      as (objetos & cfg & _ & _ & Hy').
    apply transicao_ano_inv in Hy' as (_ & Htot & _).
    split; [by eapply year_totals_identity|].
    intros Hnil. rewrite Hnil in Htot. by eapply year_totals_empty.
  - intros to_float host net payload norm itens ta anos y Hrun Hy.
    destruct (calcular_projecao_rtc_inv _ _ _ _ _ _ _ _ _ Hrun Hy)
      as (cfg & resultado & _ & _ & Hy').
    apply projecao_ano_inv in Hy' as (_ & Htot & _).
    split; [by eapply year_totals_identity|].
    intros Hnil. rewrite Hnil in Htot. by eapply year_totals_empty.
  - intros to_float api ta Hno. unfold calcular_transicao.
    rewrite (no_objects_get _ Hno). simpl.
    eexists. split; [reflexivity|]. split; [reflexivity|].
    repeat constructor.
  - intros to_float itens b cfg resultado Hno. unfold projecao_ano.
    rewrite (no_objects_get _ Hno). simpl.
    eexists. split; [reflexivity|]. simpl. repeat split.
Qed.

Lemma year_totals_aggregation_witness :
  exists anos,
    calcular_projecao_rtc float_of_decimal ONLINE_URL flaky_net ∅ (JArr [])
      [tobacco_line] None = Ok anos
    /\ Forall totals_identity anos.
Proof.
  eexists. split; [vm_compute; reflexivity|].
  apply Forall_forall. intros y Hy.
  eapply (proj1 (proj1 (proj2 year_totals_aggregation) float_of_decimal ONLINE_URL
                   flaky_net ∅ (JArr []) [tobacco_line] None _ y _ Hy)).
  Unshelve. vm_compute; reflexivity.
Defined.

(** ** C6: failed calls of the per-year mode *)

Section PerYearCalls.

Variable to_float : string -> res float.
Variable host : string.
Variable net : string -> gmap string json -> res json.
Variable payload : gmap string json.
Variable norm : json.
Variable itens : list Item.
Variable b : LegacyBase.

(** The call of the year of [cfg], as [_task] issues it. *)
Let call (cfg : YearCfg) : res json :=
  _post_year host net (cfg_ano cfg) (year_payload payload norm (cfg_ano cfg)).

Lemma collect_years_succeeded (cfgs : list YearCfg) anos :
  collect_years to_float itens b (_task host net payload norm <$> cfgs)
  = Ok anos ->
  Forall2 (fun cfg y => exists r, call cfg = Ok r
                          /\ projecao_ano to_float itens b cfg r = Ok y)
    (List.filter (fun cfg => is_ok (call cfg)) cfgs) anos.
Proof.
  revert anos; induction cfgs as [|cfg cfgs IH]; intros anos H; simpl in H.
  - injection H as <-. constructor.
  - unfold _task at 1 in H. fold (call cfg) in H. simpl.
    destruct (call cfg) as [r|e] eqn:E; simpl in *.
    + bind_inv H. bind_inv H. injection H as <-. constructor; eauto.
    + auto.
Qed.

Lemma collect_years_no_raise (cfgs : list YearCfg) :
  (forall cfg r, cfg ∈ cfgs -> call cfg = Ok r ->
     is_ok (projecao_ano to_float itens b cfg r) = true) ->
  is_ok (collect_years to_float itens b (_task host net payload norm <$> cfgs))
  = true.
Proof.
  induction cfgs as [|cfg cfgs IH]; intros Hok; simpl; [reflexivity|].
  assert (IH' := IH (fun c r Hc => Hok c r (list_elem_of_further _ _ _ Hc))).
  unfold _task at 1. fold (call cfg).
  destruct (call cfg) as [r|e] eqn:E; simpl; [|exact IH'].
  specialize (Hok cfg r (list_elem_of_here _ _) E).
  destruct (projecao_ano to_float itens b cfg r); [simpl | discriminate].
  destruct (collect_years _ _ _ _); [reflexivity | discriminate].
Qed.

End PerYearCalls.

Lemma filter_partition_length {A} (p : A -> bool) (l : list A) :
  (length (List.filter p l) + length (List.filter (fun a => negb (p a)) l)
   = length l)%nat.
Proof.
  induction l as [|a l IH]; simpl; [reflexivity|].
  destruct (p a); simpl; lia.
Qed.

Lemma filter_keeps_order (p : YearCfg -> bool) (l : list YearCfg) :
  StronglySorted Z.lt (cfg_ano <$> l) ->
  StronglySorted Z.lt (cfg_ano <$> List.filter p l).
Proof.
  induction l as [|a l IH]; simpl; intros H; [constructor|].
  apply StronglySorted_inv in H as [Hl Ha].
  destruct (p a); simpl; [|auto].
  constructor; [auto|].
  rewrite Forall_forall in Ha |- *. intros z Hz. apply Ha.
  apply list_elem_of_fmap in Hz as (c & -> & Hc).
  apply list_elem_of_fmap. exists c. split; [reflexivity|].
  apply list_elem_of_In in Hc. apply filter_In in Hc as [Hc _].
  by apply list_elem_of_In.
Qed.

Lemma years_of_entries to_float itens b (call : YearCfg -> res json) cfgs anos :
  Forall2 (fun cfg y => exists r, call cfg = Ok r
             /\ projecao_ano to_float itens b cfg r = Ok y) cfgs anos ->
  yr_ano <$> anos = cfg_ano <$> cfgs.
Proof.
  induction 1 as [|cfg y l k (r & _ & Hy) _ IH]; simpl; [reflexivity|].
  apply projecao_ano_inv in Hy as (-> & _). f_equal. exact IH.
Qed.

Lemma schedule_sorted : StronglySorted Z.lt (cfg_ano <$> TRANSITION_YEARS).
Proof. repeat constructor. Qed.

Lemma post_loop_unreachable net urls last_exc payload :
  (forall url, net url payload = Raise ConnectError
               \/ net url payload = Raise TimeoutException) ->
  is_ok (post_loop net urls last_exc payload) = false.
Proof.
  intros Hdown. revert last_exc.
  induction urls as [|url urls IH]; intros last_exc; simpl; [reflexivity|].
  destruct (Hdown (url +:+ "/api/calculadora/regime-geral")) as [-> | ->];
    apply IH.
Qed.

(** C6.  The call [_post_year] of a year fails when the host answers with
    an HTTP status error, and when every host refuses the connection or
    times out.  In [calcular_projecao_rtc], a year whose call fails, with
    whatever exception, is left out of the result and never makes the
    projection raise: the projection returns whenever the years whose call
    succeeded are processed without exception.  The result then has
    exactly one entry per year whose call succeeded, each built from the
    response of that year, in the order of [TRANSITION_YEARS], hence
    ascending by year; its length plus the number of failed calls is 8, so
    2 failed calls leave 6 entries. *)
Theorem failed_years_are_omitted to_float host net payload norm itens ta :
  let request cfg := year_payload payload norm (cfg_ano cfg) in
  let call cfg := _post_year host net (cfg_ano cfg) (request cfg) in
  let succeeded := List.filter (fun cfg => is_ok (call cfg)) TRANSITION_YEARS in
  let failed :=
    List.filter (fun cfg => negb (is_ok (call cfg))) TRANSITION_YEARS in
  (forall cfg,
     (net (host +:+ "/api/calculadora/regime-geral") (request cfg)
      = Raise HTTPStatusError ->
      call cfg = Raise HTTPStatusError)
     /\ ((forall url, net url (request cfg) = Raise ConnectError
                      \/ net url (request cfg) = Raise TimeoutException) ->
         is_ok (call cfg) = false))
  /\ ((forall cfg r, cfg ∈ TRANSITION_YEARS -> call cfg = Ok r ->
      is_ok (projecao_ano to_float itens (legacy_base ta) cfg r) = true) ->
   is_ok (calcular_projecao_rtc to_float host net payload norm itens ta) = true)
  /\ (forall anos,
        calcular_projecao_rtc to_float host net payload norm itens ta = Ok anos ->
        Forall2 (fun cfg y => exists r, call cfg = Ok r
                   /\ projecao_ano to_float itens (legacy_base ta) cfg r = Ok y)
          succeeded anos
        /\ yr_ano <$> anos = cfg_ano <$> succeeded
        /\ StronglySorted Z.lt (yr_ano <$> anos)
        /\ (length anos + length failed = 8)%nat
        /\ (length failed = 2%nat -> length anos = 6%nat)).
Proof.
  intros request call succeeded failed. split; [|split].
  - intros cfg. split.
    + intros Hstatus. unfold call, _post_year. simpl. by rewrite Hstatus.
    + apply post_loop_unreachable.
  - apply collect_years_no_raise.
  - intros anos Hrun. unfold calcular_projecao_rtc in Hrun.
    apply collect_years_succeeded in Hrun. fold succeeded in Hrun.
    assert (Hanos : yr_ano <$> anos = cfg_ano <$> succeeded)
      by (eapply years_of_entries; exact Hrun).
    assert (Hlen : (length anos + length failed = 8)%nat).
    { rewrite <- (length_fmap yr_ano), Hanos, length_fmap.
      apply (filter_partition_length (fun cfg => is_ok (call cfg))
               TRANSITION_YEARS). }
    split; [exact Hrun|]. split; [exact Hanos|].
    split; [|split; [exact Hlen | lia]].
    rewrite Hanos. apply filter_keeps_order, schedule_sorted.
Qed.

(** With the local host down and the online host failing for 2028 and
    2031, six entries are returned, for the other six years in order. *)
Lemma failed_years_are_omitted_witness :
  exists anos,
    calcular_projecao_rtc float_of_decimal ONLINE_URL flaky_net ∅ (JArr [])
      [tobacco_line] None = Ok anos
    /\ yr_ano <$> anos = [2026; 2027; 2029; 2030; 2032; 2033]
    /\ length anos = 6%nat.
Proof.
  destruct (calcular_projecao_rtc float_of_decimal ONLINE_URL flaky_net ∅ (JArr [])
              [tobacco_line] None) as [anos|e] eqn:Hrun;
    [|vm_compute in Hrun; discriminate Hrun].
  exists anos. split; [reflexivity|].
  destruct (proj2 (proj2 (failed_years_are_omitted float_of_decimal ONLINE_URL
                            flaky_net ∅ (JArr []) [tobacco_line] None))
              anos Hrun)
    as (_ & Hyears & _ & _ & Hsix).
  split; [rewrite Hyears; vm_compute; reflexivity|].
  apply Hsix; vm_compute; reflexivity.
Defined.

(** ** C7: the excise of the year 2026 *)

Lemma extrair_item_2026_vIS to_float obj itens r :
  _extrair_item_2026 to_float obj itens = Ok r ->
  exists vIS, live_vIS to_float obj = Ok vIS
    /\ lr_is r = Py.round vIS 2 /\ lr_isInfo r = None.
Proof.
  unfold _extrair_item_2026, live_vIS. intros H.
  bind_inv H. bind_inv H. rewrite Ha0. simpl.
  do 11 bind_inv H. bind_inv H. rewrite Ha12. simpl.
  bind_inv H. injection H as <-. simpl. eauto.
Qed.

Lemma extrair_item_rtc_vIS to_float inp_by_num obj r :
  extrair_item_rtc to_float inp_by_num obj = Ok r ->
  exists vIS inp,
    object_vIS_rtc to_float obj = Ok vIS
    /\ inp_lookup inp_by_num (lr_numero r) = Ok inp
    /\ lr_ncm r = default "" (it_ncm inp)
    /\ lr_is r = Py.round vIS 2
    /\ lr_isInfo r = if PrimFloat.ltb 0 vIS
                     then detectar_is (Some (lr_ncm r)) else None.
Proof.
  unfold extrair_item_rtc, object_vIS_rtc. intros H.
  bind_inv H. bind_inv H. rewrite Ha0. simpl.
  do 11 bind_inv H. bind_inv H. bind_inv H. injection H as <-. simpl. eauto 10.
Qed.

Lemma get_ok_sub_dict d k v :
  Json.get d k (JObj ∅) = Ok v -> v = sub_dict d k.
Proof. destruct d; try discriminate. simpl. by intros [= <-]. Qed.

Lemma object_vIS_rtc_missing to_float obj vIS :
  object_vIS_rtc to_float obj = Ok vIS ->
  missing (sub_dict (sub_dict obj "tribCalc") "IS") "vIS" -> vIS = 0%float.
Proof.
  unfold object_vIS_rtc, rtc_vIS. intros H Hm.
  bind_inv H. bind_inv H.
  apply get_ok_sub_dict in Ha as ->. apply get_ok_sub_dict in Ha0 as ->.
  destruct (sub_dict (sub_dict obj "tribCalc") "IS") as [| | | | | |m];
    try contradiction.
  unfold num_field_or0 in H. simpl in H, Hm. rewrite Hm in H. simpl in H.
  by injection H as <-.
Qed.

Lemma live_vIS_missing to_float obj vIS :
  live_vIS to_float obj = Ok vIS ->
  missing (sub_dict (sub_dict obj "tribCalc") "IS") "vIS" -> vIS = 0%float.
Proof.
  unfold live_vIS. intros H Hm.
  bind_inv H. bind_inv H.
  apply get_ok_sub_dict in Ha as ->. apply get_ok_sub_dict in Ha0 as ->.
  destruct (sub_dict (sub_dict obj "tribCalc") "IS") as [| | | | | |m];
    try contradiction.
  unfold num_field in H. simpl in H, Hm. rewrite Hm in H. simpl in H.
  by injection H as <-.
Qed.

Lemma sum_zeros (l : list float) :
  Forall (fun x => x = 0%float) l -> Py.sum l = 0%float.
Proof.
  unfold Py.sum. induction 1 as [|x l -> _ IH]; simpl; [reflexivity | exact IH].
Qed.

Lemma zero_excise_total y :
  totals_identity y -> Forall (fun r => lr_is r = 0%float) (yr_itens y) ->
  tot_is (yr_total y) = 0%float.
Proof.
  intros (_ & _ & -> & _) Hz. rewrite sum_zeros; [reflexivity|].
  induction Hz; constructor; auto.
Qed.

(** C7, as the code has it.  In the 2026 entry of both modes the excise of
    a line is not computed from the category table: it is the excise
    amount [vIS] that the external result object of the line supplies,
    rounded to 2 decimals, and 0 when the object supplies none, whatever
    the commodity code; in the single-call mode the category info of the
    line is none.  The excise total of an entry is 0 when the excise of
    each of its lines is 0. *)
Theorem excise_2026_is_external :
  (forall to_float api itens ta anos y,
     calcular_transicao to_float api itens ta = Ok anos ->
     y ∈ anos -> yr_ano y = 2026 ->
     (exists objetos objs,
        Json.get api "objetos" (JArr []) = Ok objetos
        /\ Json.iter objetos = Ok objs
        /\ Forall2 (fun obj r => exists vIS,
                      live_vIS to_float obj = Ok vIS
                      /\ lr_is r = Py.round vIS 2 /\ lr_isInfo r = None
                      /\ (missing (sub_dict (sub_dict obj "tribCalc") "IS") "vIS"
                          -> lr_is r = 0%float))
             objs (yr_itens y))
     /\ (Forall (fun r => lr_is r = 0%float) (yr_itens y) ->
         tot_is (yr_total y) = 0%float))
  /\ (forall to_float host net payload norm itens ta anos y,
        calcular_projecao_rtc to_float host net payload norm itens ta = Ok anos ->
        y ∈ anos -> yr_ano y = 2026 ->
        (exists resultado objetos objs,
           _post_year host net 2026 (year_payload payload norm 2026)
           = Ok resultado
           /\ Json.get resultado "objetos" (JArr []) = Ok objetos
           /\ Json.iter objetos = Ok objs
           /\ Forall2 (fun obj r => exists vIS,
                         object_vIS_rtc to_float obj = Ok vIS
                         /\ lr_is r = Py.round vIS 2
                         /\ (missing (sub_dict (sub_dict obj "tribCalc") "IS")
                               "vIS" -> lr_is r = 0%float))
                objs (yr_itens y))
        /\ (Forall (fun r => lr_is r = 0%float) (yr_itens y) ->
            tot_is (yr_total y) = 0%float)).
Proof.
  split.
  - intros to_float api itens ta anos y Hrun Hy H2026.
    destruct (calcular_transicao_inv _ _ _ _ _ _ Hrun Hy)
      as (objetos & cfg & Hget & _ & Hy').
    apply transicao_ano_inv in Hy' as (Hano & Htot & _ & _ & _ & Hlive).
    destruct Hlive as (objs & Hiter & Hlines); [congruence|].
    split.
    + exists objetos, objs. split; [exact Hget|]. split; [exact Hiter|].
      eapply Forall2_impl; [exact Hlines|].
      intros obj r Hr.
      apply extrair_item_2026_vIS in Hr as (vIS & Hv & Hr & Hinfo).
      exists vIS. repeat split; try assumption.
      intros Hm. by rewrite Hr, (live_vIS_missing _ _ _ Hv Hm).
    + apply zero_excise_total. by eapply year_totals_identity.
  - intros to_float host net payload norm itens ta anos y Hrun Hy H2026.
    destruct (calcular_projecao_rtc_inv _ _ _ _ _ _ _ _ _ Hrun Hy)
      as (cfg & resultado & _ & Hpost & Hy').
    apply projecao_ano_inv in Hy'
      as (Hano & Htot & (objetos & Hget & Hext) & _).
    rewrite <- Hano, H2026 in Hpost.
    unfold _extrair_itens_rtc in Hext. bind_inv Hext.
    apply res_mapM_Forall2 in Hext.
    split.
    + exists resultado, objetos, a. split; [exact Hpost|].
      split; [exact Hget|]. split; [exact Ha|].
      eapply Forall2_impl; [exact Hext|].
      intros obj r Hr.
      apply extrair_item_rtc_vIS in Hr as (vIS & _ & Hv & _ & _ & Hr & _).
      exists vIS. repeat split; try assumption.
      intros Hm. by rewrite Hr, (object_vIS_rtc_missing _ _ _ Hv Hm).
    + apply zero_excise_total. by eapply year_totals_identity.
Qed.

(** With a calculator result that carries no excise for the tobacco line,
    the 2026 entry of the single-call mode has no excise, although the
    code of the line matches a category. *)
Lemma excise_2026_is_external_witness :
  exists anos,
    calcular_transicao float_of_decimal bare_response [tobacco_line] None
    = Ok anos
    /\ (forall y, y ∈ anos -> yr_ano y = 2026 ->
          Forall (fun r => lr_is r = 0%float) (yr_itens y)
          /\ tot_is (yr_total y) = 0%float)
    /\ detectar_is (it_ncm tobacco_line) <> None.
Proof.
  destruct (calcular_transicao float_of_decimal bare_response [tobacco_line]
              None) as [anos|e] eqn:Hrun;
    [|vm_compute in Hrun; discriminate Hrun].
  exists anos. split; [reflexivity|]. split; [|discriminate].
  intros y Hy H2026.
  destruct (proj1 excise_2026_is_external float_of_decimal _ _ _ anos y
              Hrun Hy H2026) as [(objetos & objs & Hget & Hiter & Hall) Htot].
  vm_compute in Hget. injection Hget as <-.
  simpl in Hiter. injection Hiter as <-.
  assert (Hz : Forall (fun r => lr_is r = 0%float) (yr_itens y)).
  { apply Forall2_cons_inv_l in Hall
      as (r & rs & (vIS & _ & _ & _ & Hm) & Hnil & ->).
    apply Forall2_nil_inv_l in Hnil as ->.
    constructor; [apply Hm; vm_compute; reflexivity | constructor]. }
  split; [exact Hz | exact (Htot Hz)].
Defined.

Lemma float_5_neq_0 : 5%float <> 0%float.
Proof.
  intros H. apply (f_equal (fun x => PrimFloat.eqb x 0)) in H.
  vm_compute in H. discriminate H.
Qed.

(** C7 as stated fails in both modes: when the calculator reports an
    excise of 5.00 for the line, the 2026 entry carries it. *)
Lemma excise_2026_can_be_nonzero :
  (exists anos,
     calcular_transicao float_of_decimal (rtc_response (JStr "5.00"))
       [tobacco_line] None = Ok anos
     /\ ~ excise_free_2026 anos)
  /\ (exists anos,
        calcular_projecao_rtc float_of_decimal ONLINE_URL flaky_net ∅ (JArr [])
          [tobacco_line] None = Ok anos
        /\ ~ excise_free_2026 anos).
Proof.
  split.
  - destruct (calcular_transicao float_of_decimal (rtc_response (JStr "5.00"))
                [tobacco_line] None) as [anos|e] eqn:Hrun;
      [|vm_compute in Hrun; discriminate Hrun].
    exists anos. split; [reflexivity|]. intros Hfree.
    vm_compute in Hrun. injection Hrun as <-.
    destruct (Hfree _ (list_elem_of_here _ _) eq_refl) as [_ Htot].
    exact (float_5_neq_0 Htot).
  - destruct (calcular_projecao_rtc float_of_decimal ONLINE_URL flaky_net ∅ (JArr [])
                [tobacco_line] None) as [anos|e] eqn:Hrun;
      [|vm_compute in Hrun; discriminate Hrun].
    exists anos. split; [reflexivity|]. intros Hfree.
    vm_compute in Hrun. injection Hrun as <-.
    destruct (Hfree _ (list_elem_of_here _ _) eq_refl) as [_ Htot].
    exact (float_5_neq_0 Htot).
Qed.

(** ** C8: the effective rates of the per-year mode *)

(** C8.  In every year entry that [calcular_projecao_rtc] returns, with
    [total_bc] the sum of the base amounts of the entry's lines: when
    [total_bc] is zero, aliqCbs and aliqIbs are 0; otherwise aliqCbs =
    round(cbs total / total_bc * 100, 3) and aliqIbs = round(ibs total /
    total_bc * 100, 3).  The computation never raises, so no division by a
    zero base takes place.  The single-call mode reports the nominal rates
    of the schedule instead. *)
Theorem effective_rates :
  (forall to_float host net payload norm itens ta anos y,
     calcular_projecao_rtc to_float host net payload norm itens ta = Ok anos ->
  y ∈ anos ->
     let total_bc := Py.sum (lr_baseCalculo <$> yr_itens y) in
     let t := yr_total y in
     (PrimFloat.eqb total_bc 0 = true ->
      yr_aliqCbs y = 0%float /\ yr_aliqIbs y = 0%float)
     /\ (PrimFloat.eqb total_bc 0 = false ->
         yr_aliqCbs y = Py.round (tot_cbs t / total_bc * 100) 3
         /\ yr_aliqIbs y = Py.round (tot_ibs t / total_bc * 100) 3))
  /\ (forall total total_bc, is_ok (effective_rate total total_bc) = true)
  /\ (forall to_float api itens ta anos y,
        calcular_transicao to_float api itens ta = Ok anos -> y ∈ anos ->
        exists cfg, cfg ∈ TRANSITION_YEARS /\ cfg_ano cfg = yr_ano y
          /\ yr_aliqCbs y = (cfg_cbs cfg * 100)%float
          /\ yr_aliqIbs y = (cfg_ibs cfg * 100)%float).
Proof.
  split; [|split].
  - intros to_float host net payload norm itens ta anos y Hrun Hy.
    intros total_bc t.
    destruct (calcular_projecao_rtc_inv _ _ _ _ _ _ _ _ _ Hrun Hy)
      as (cfg & resultado & _ & _ & Hy').
    apply projecao_ano_inv in Hy' as (_ & _ & _ & Hcbs & Hibs).
    fold total_bc t in Hcbs, Hibs.
    unfold effective_rate, Py.truthy, Py.truediv in Hcbs, Hibs.
    split; intros Hbc; rewrite Hbc in Hcbs, Hibs; simpl in Hcbs, Hibs;
      injection Hcbs as <-; injection Hibs as <-; split; reflexivity.
  - intros total total_bc.
    destruct (effective_rate_total total total_bc) as [v ->].
    reflexivity.
  - intros to_float api itens ta anos y Hrun Hy.
    destruct (calcular_transicao_inv _ _ _ _ _ _ Hrun Hy)
      as (objetos & cfg & _ & Hcfg & Hy').
    apply transicao_ano_inv in Hy' as (Hano & _ & Hcbs & Hibs & _).
    exists cfg. auto.
Qed.

(** In the flaky network every returned year has one line of base 1000,
    cbs 9 and ibs 1: the effective rates are 0.9 and 0.1. *)
Lemma effective_rates_witness :
  exists anos,
    calcular_projecao_rtc float_of_decimal ONLINE_URL flaky_net ∅ (JArr [])
      [tobacco_line] None = Ok anos
    /\ Forall (fun y => yr_aliqCbs y = 0.9%float /\ yr_aliqIbs y = 0.1%float)
         anos.
Proof.
  destruct (calcular_projecao_rtc float_of_decimal ONLINE_URL flaky_net ∅ (JArr [])
              [tobacco_line] None) as [anos|e] eqn:Hrun;
    [|vm_compute in Hrun; discriminate Hrun].
  exists anos. split; [reflexivity|].
  apply Forall_forall. intros y Hy.
  pose proof (proj2 (proj1 effective_rates float_of_decimal ONLINE_URL flaky_net
                       ∅ (JArr []) [tobacco_line] None anos y Hrun Hy)) as Hrate.
  vm_compute in Hrun. injection Hrun as <-.
  repeat (apply elem_of_cons in Hy as [->|Hy];
          [destruct Hrate as [-> ->]; [reflexivity | split; reflexivity]|]).
  inversion Hy.
Defined.

(** ** C9: fields missing from an external result *)

#[local] Arguments num_field : simpl never.
#[local] Arguments num_field_or0 : simpl never.

Lemma get_sub_dict d k :
  is_dict d = true -> Json.get d k (JObj ∅) = Ok (sub_dict d k).
Proof. destruct d; try discriminate. reflexivity. Qed.

Lemma py_float_or0 to_float v :
  is_ok (py_float to_float v) = true ->
  is_ok (py_float to_float (Json.or0 v)) = true.
Proof. unfold Json.or0. destruct (Json.truthy v); [auto | reflexivity]. Qed.

Lemma num_field_ok to_float d k :
  number_or_missing to_float d k = true ->
  exists x, num_field to_float d k = Ok x /\ (missing d k -> x = 0%float).
Proof.
  destruct d as [| | | | | |m]; try discriminate. unfold num_field; simpl.
  destruct (m !! k) as [v|]; simpl; intros H.
  - apply is_ok_true in H as [x Hx]. exists x. split; [exact Hx | discriminate].
  - exists 0%float. split; reflexivity.
Qed.

Lemma num_field_or0_ok to_float d k :
  number_or_missing to_float d k = true ->
  exists x, num_field_or0 to_float d k = Ok x /\ (missing d k -> x = 0%float).
Proof.
  destruct d as [| | | | | |m]; try discriminate. unfold num_field_or0; simpl.
  destruct (m !! k) as [v|]; simpl; intros H.
  - apply py_float_or0, is_ok_true in H as [x Hx].
    exists x. split; [exact Hx | discriminate].
  - exists 0%float. split; reflexivity.
Qed.

Lemma hashable_or_missing_nObj obj :
  hashable_or_missing obj "nObj" = true ->
  is_dict obj = true
  /\ exists nobj, Json.get obj "nObj" (JInt 1) = Ok nobj
       /\ Json.hashable nobj = true.
Proof.
  destruct obj as [| | | | | |m]; try discriminate. simpl.
  destruct (m !! "nObj") as [v|]; simpl; eauto.
Qed.

(** Unpacks [well_shaped] into its conditions, one hypothesis each. *)
Ltac shape_inv H :=
  unfold well_shaped in H;
  repeat match type of H with
         | (_ && _ = true) =>
             let H' := fresh "Hs" in
             apply andb_prop in H; destruct H as [H H']
         end.

(** Reads the next numeric field of the goal with the lemma [lem]. *)
Ltac read_num lem :=
  match goal with
  | |- context [num_field ?to_float ?d ?k] =>
      let x := fresh "x" in
      let Hx := fresh "Hx" in
      destruct (lem to_float d k ltac:(assumption)) as (x & -> & Hx); simpl
  | |- context [num_field_or0 ?to_float ?d ?k] =>
      let x := fresh "x" in
      let Hx := fresh "Hx" in
      destruct (lem to_float d k ltac:(assumption)) as (x & -> & Hx); simpl
  end.

(** Replaces by 0 every field whose key is known to be missing. *)
Ltac use_missing :=
  repeat match goal with
         | Hm : missing ?d ?k, Hz : missing ?d ?k -> _ |- _ =>
             rewrite (Hz Hm) in *; clear Hz
         end.

Lemma extrair_item_rtc_ok to_float inp_by_num obj :
  well_shaped to_float obj = true ->
  exists r, extrair_item_rtc to_float inp_by_num obj = Ok r
    /\ zero_defaults obj r.
Proof.
  intros H. shape_inv H.
  apply hashable_or_missing_nObj in H as (Hobj & nobj & HnObj & Hhash).
  unfold extrair_item_rtc, rtc_vIS, inp_lookup.
  rewrite HnObj; simpl.
  repeat first [ rewrite get_sub_dict by assumption; simpl
               | read_num num_field_or0_ok ].
  rewrite Hhash; simpl.
  eexists. split; [reflexivity|]. unfold zero_defaults; simpl.
  repeat split; intros; use_missing; try reflexivity; eauto.
Qed.

(** C9.  On result objects in which every field that the extractors read
    is absent or of the expected kind, [_extrair_item_2026] and
    [_extrair_itens_rtc] do not raise: the first returns a line result for
    the object, the second one line result per object of the list.  In
    each line result every numeric field that is missing from its object
    (vBC, vCBS, vIBS, vIS, pCBS, pIBSUF, pIBSMun, also when the dict that
    should hold it is missing) is taken as 0. *)
Theorem missing_fields_default_to_zero to_float itens :
  (forall obj,
     well_shaped to_float obj = true ->
     exists r, _extrair_item_2026 to_float obj itens = Ok r
       /\ zero_defaults obj r)
  /\ (forall objs,
        Forall (fun obj => well_shaped to_float obj = true) objs ->
        exists rs, _extrair_itens_rtc to_float (JArr objs) itens = Ok rs
          /\ Forall2 zero_defaults objs rs).
Proof.
  split.
  - intros obj H. shape_inv H.
    apply hashable_or_missing_nObj in H as (Hobj & nobj & HnObj & _).
    unfold _extrair_item_2026.
    rewrite HnObj; simpl.
    repeat first [ rewrite get_sub_dict by assumption; simpl
                 | read_num num_field_ok ].
    eexists. split; [reflexivity|]. unfold zero_defaults; simpl.
    repeat split; intros; use_missing; try reflexivity; eauto.
  - intros objs Hobjs. unfold _extrair_itens_rtc. simpl.
    apply res_mapM_total.
    eapply Forall_impl; [exact Hobjs|].
    intros obj Hobj. by apply extrair_item_rtc_ok.
Qed.

(** A result object that carries nothing but its line number yields a line
    whose amounts and rates are all 0, in both extractors. *)
Lemma missing_fields_default_to_zero_witness :
  (exists r,
     _extrair_item_2026 float_of_decimal bare_object [tobacco_line] = Ok r
     /\ lr_baseCalculo r = 0%float /\ lr_cbs r = 0%float /\ lr_ibs r = 0%float
     /\ lr_is r = 0%float /\ lr_aliqCbs r = 0%float /\ lr_aliqIbs r = 0%float
     /\ lr_total r = 0%float)
  /\ (exists r, _extrair_itens_rtc float_of_decimal (JArr [bare_object])
                  [tobacco_line] = Ok [r]
        /\ lr_baseCalculo r = 0%float /\ lr_cbs r = 0%float /\ lr_ibs r = 0%float
        /\ lr_is r = 0%float /\ lr_aliqCbs r = 0%float /\ lr_aliqIbs r = 0%float
        /\ lr_total r = 0%float).
Proof.
  assert (Hshape : well_shaped float_of_decimal bare_object = true)
    by (vm_compute; reflexivity).
  destruct (missing_fields_default_to_zero float_of_decimal [tobacco_line])
    as [Hlive Hrtc].
  destruct (Hlive bare_object Hshape) as (r1 & Hr1 & Hz1).
  destruct (Hrtc [bare_object] (Forall_cons_2 _ _ _ Hshape (Forall_nil_2 _)))
    as (rs & Hrs & Hz2).
  apply Forall2_cons_inv_l in Hz2 as (r2 & rs' & Hz2 & Hnil & ->).
  apply Forall2_nil_inv_l in Hnil as ->.
  assert (Hmiss : forall k, missing (JObj ∅) k)
    by (intros k; apply lookup_empty).
  split.
  - exists r1. split; [exact Hr1|].
    destruct Hz1 as (H1 & H2 & H3 & H4 & H5 & _ & _ & H6 & H7).
    repeat split; [apply H1 | apply H2 | apply H3 | apply H4 | apply H5
                  | apply H6 | apply H7]; apply Hmiss.
  - exists r2. split; [exact Hrs|].
    destruct Hz2 as (H1 & H2 & H3 & H4 & H5 & _ & _ & H6 & H7).
    repeat split; [apply H1 | apply H2 | apply H3 | apply H4 | apply H5
                  | apply H6 | apply H7]; apply Hmiss.
Defined.

(** ** C10: the category info of the per-year extractor *)

Lemma ltb_zero_of_eqb_zero x :
  PrimFloat.eqb x 0 = true -> PrimFloat.ltb 0 x = false.
Proof. intros H. by destruct (float_zero_cases x H) as [-> | ->]. Qed.

(** C10.  For every line result [r] that [_extrair_itens_rtc] builds from a
    result object, with [vIS] the excise amount read from the object and
    the commodity code of [r] the one of the invoice line found under the
    object's number: when [vIS > 0], isInfo is the result of [detectar_is]
    on that code; when [vIS > 0] does not hold, in particular when [vIS] is
    zero or missing from the object, isInfo is none, whatever the code. *)
Theorem isInfo_follows_external_excise to_float objetos itens rs :
  _extrair_itens_rtc to_float objetos itens = Ok rs ->
  exists objs, Json.iter objetos = Ok objs /\
    Forall2 (fun obj r =>
      exists vIS inp,
        object_vIS_rtc to_float obj = Ok vIS
        /\ inp_lookup (build_inp_by_num 0 itens ∅) (lr_numero r) = Ok inp
        /\ lr_ncm r = default "" (it_ncm inp)
        /\ (PrimFloat.ltb 0 vIS = true ->
            lr_isInfo r = detectar_is (Some (lr_ncm r)))
        /\ (PrimFloat.ltb 0 vIS = false -> lr_isInfo r = None)
        /\ (PrimFloat.eqb vIS 0 = true -> lr_isInfo r = None)
        /\ (missing (sub_dict (sub_dict obj "tribCalc") "IS") "vIS" ->
            lr_isInfo r = None))
      objs rs.
Proof.
  unfold _extrair_itens_rtc. intros H. bind_inv H.
  exists a. split; [exact Ha|].
  apply res_mapM_Forall2 in H.
  eapply Forall2_impl; [exact H|].
  intros obj r Hr.
  apply extrair_item_rtc_vIS in Hr
    as (vIS & inp & Hv & Hinp & Hncm & _ & Hinfo).
  exists vIS, inp.
  split; [exact Hv|]. split; [exact Hinp|]. split; [exact Hncm|].
  assert (Hnone : PrimFloat.ltb 0 vIS = false -> lr_isInfo r = None)
    by (intros E; by rewrite Hinfo, E).
  split; [intros E; by rewrite Hinfo, E|]. split; [exact Hnone|].
  split; [intros E; by apply Hnone, ltb_zero_of_eqb_zero|].
  intros Hm. apply Hnone.
  by rewrite (object_vIS_rtc_missing _ _ _ Hv Hm).
Qed.

(** The tobacco line with an external excise of 0.00: no category info,
    although [detectar_is] matches the line's code. *)
Lemma isInfo_follows_external_excise_witness :
  exists r,
    _extrair_itens_rtc float_of_decimal (JArr [rtc_object (JStr "0.00")])
      [tobacco_line] = Ok [r]
    /\ lr_ncm r = "2401"
    /\ lr_isInfo r = None
    /\ detectar_is (Some (lr_ncm r)) <> None.
Proof.
  destruct (_extrair_itens_rtc float_of_decimal (JArr [rtc_object (JStr "0.00")])
              [tobacco_line]) as [rs|e] eqn:Hrun;
    [|vm_compute in Hrun; discriminate Hrun].
  destruct (isInfo_follows_external_excise _ _ _ _ Hrun)
    as (objs & Hiter & Hall).
  injection Hiter as <-.
  apply Forall2_cons_inv_l in Hall as (r & rs' & Hr & Hnil & ->).
  apply Forall2_nil_inv_l in Hnil as ->.
  destruct Hr as (vIS & inp & Hv & _ & _ & _ & Hnone & _).
  exists r. split; [reflexivity|].
  assert (HvIS : vIS = 0%float)
    by (vm_compute in Hv; by injection Hv).
  vm_compute in Hrun. injection Hrun as Hrun.
  split; [by rewrite <- Hrun|].
  split; [apply Hnone; by rewrite HvIS|].
  rewrite <- Hrun. vm_compute. discriminate.
Defined.

(** * Further properties of the services and their callers *)

(** ** The hosts of the calculator *)

Lemma post_loop_last net url last_exc payload :
  post_loop net [url] last_exc payload
  = net (url +:+ "/api/calculadora/regime-geral") payload.
Proof.
  simpl. destruct (net _ payload) as [body|e]; [reflexivity|].
  destruct e; reflexivity.
Qed.

(** X1.  [_post_year] and [calcular_tributos] give the same result: the
    answer of the first host, unless that answer is a connection error or
    a timeout and the local host is another host, in which case the result
    is the answer of the local host, whatever it is.  An HTTP status error
    or an undecodable body of the first host is never followed by a second
    attempt, and the placeholder exception the loop starts from is never
    the one raised for want of an answer. *)
Theorem post_year_fallback host net year payload :
  let path := "/api/calculadora/regime-geral" in
  let first := net (host +:+ path) payload in
  let second := net (LOCAL_URL +:+ path) payload in
  _post_year host net year payload = calcular_tributos host net payload
  /\ _post_year host net year payload =
     match first with
     | Raise ConnectError | Raise TimeoutException =>
         if decide (host = LOCAL_URL) then first else second
     | _ => first
     end.
Proof.
  intros path first second. split; [reflexivity|].
  unfold _post_year. destruct (decide (host = LOCAL_URL)) as [Heq|Hne].
  - rewrite post_loop_last. fold path first.
    destruct first as [body|[]]; reflexivity.
  - cbn [post_loop]. fold path first.
    destruct first as [body|e]; [reflexivity|].
    destruct e; try reflexivity;
      [ exact (post_loop_last net LOCAL_URL ConnectError payload)
      | exact (post_loop_last net LOCAL_URL TimeoutException payload) ].
Qed.

(** ** The payload of a year *)

Lemma list_ascii_of_append s t :
  list_ascii_of_string (s +:+ t)
  = (list_ascii_of_string s ++ list_ascii_of_string t)%list.
Proof.
  induction s as [|a s IH]; [reflexivity|].
  change (String a s +:+ t) with (String a (s +:+ t)). simpl. by rewrite IH.
Qed.

Lemma append_inj_r s1 s2 t : s1 +:+ t = s2 +:+ t -> s1 = s2.
Proof.
  intros H. apply (f_equal list_ascii_of_string) in H.
  rewrite !list_ascii_of_append in H. apply app_inv_tail in H.
  apply (f_equal string_of_list_ascii) in H.
  by rewrite !string_of_list_ascii_of_string in H.
Qed.

(** X2.  The payload that [calcular_projecao_rtc] sends for a year carries
    the renumbered lines under ["itens"] and the first day of that year
    under ["dataHoraEmissao"], whatever the base payload held under these
    two keys, and every other key of the base payload unchanged.  The
    payloads of two different years are different. *)
Theorem year_payload_fields (base_payload : gmap string json) itens_norm year :
  year_payload base_payload itens_norm year !! "itens" = Some itens_norm
  /\ year_payload base_payload itens_norm year !! "dataHoraEmissao"
     = Some (JStr (pretty year +:+ "-01-01T12:00:00-03:00"))
  /\ (forall k, k <> "itens" -> k <> "dataHoraEmissao" ->
        year_payload base_payload itens_norm year !! k = base_payload !! k)
  /\ (forall year',
        year_payload base_payload itens_norm year
        = year_payload base_payload itens_norm year' -> year = year').
Proof.
  unfold year_payload. split; [|split; [|split]].
  - by rewrite lookup_insert_eq.
  - rewrite lookup_insert_ne by discriminate. by rewrite lookup_insert_eq.
  - intros k H1 H2. by rewrite !lookup_insert_ne by congruence.
  - intros year' H.
    apply (f_equal (fun m : gmap string json => m !! "dataHoraEmissao")) in H.
    rewrite !(lookup_insert_ne _ "itens") in H by discriminate.
    rewrite !lookup_insert_eq in H. injection H as H.
    apply append_inj_r in H. by apply (inj pretty) in H.
Qed.

(** The payloads of 2026 and 2027 differ in their date only. *)
Lemma year_payload_fields_witness :
  year_payload ∅ (JArr []) 2026 !! "dataHoraEmissao"
  = Some (JStr "2026-01-01T12:00:00-03:00")
  /\ year_payload ∅ (JArr []) 2026 <> year_payload ∅ (JArr []) 2027.
Proof.
  destruct (year_payload_fields ∅ (JArr []) 2026) as (_ & Hdate & _ & Hinj).
  split; [exact Hdate|].
  intros H. apply Hinj in H. discriminate H.
Defined.

(** ** The classifier and the form of the code *)

Lemma remove_dots_app s t :
  remove_dots (s +:+ t) = remove_dots s +:+ remove_dots t.
Proof.
  induction s as [|a s IH]; [reflexivity|].
  change (String a s +:+ t) with (String a (s +:+ t)). simpl.
  destruct (Ascii.eqb a "."); [exact IH|].
  change (String a (remove_dots s) +:+ remove_dots t)
    with (String a (remove_dots s +:+ remove_dots t)).
  by rewrite IH.
Qed.

Lemma str_take_app n s t :
  (n <= String.length s)%nat -> str_take n (s +:+ t) = str_take n s.
Proof.
  revert s; induction n as [|n IH]; intros s Hn.
  - by destruct s, t.
  - destruct s as [|a s]; simpl in Hn; [lia|].
    change (String a s +:+ t) with (String a (s +:+ t)). simpl.
    rewrite IH by lia. reflexivity.
Qed.

(** X3.  The classification does not depend on where the dots of the code
    are: a code with a dot inserted anywhere is classified as the code
    without it.  Nor does it depend on what follows the first four
    characters that are not dots. *)
Theorem detectar_is_formatting (s1 s2 t : string) :
  detectar_is (Some (s1 +:+ "." +:+ s2)) = detectar_is (Some (s1 +:+ s2))
  /\ ((4 <= String.length (remove_dots s1))%nat ->
      detectar_is (Some (s1 +:+ t)) = detectar_is (Some s1)).
Proof.
  unfold detectar_is, prefix4. cbn [from_option id]. split.
  - by rewrite !remove_dots_app.
  - intros Hlen. by rewrite remove_dots_app, str_take_app.
Qed.

(** The tobacco code written 2401.10.00, 24.01.1000 or 2401 is classified
    alike. *)
Lemma detectar_is_formatting_witness :
  detectar_is (Some "24.01.1000") = detectar_is (Some "2401.1000")
  /\ detectar_is (Some "2401.10.00") = detectar_is (Some "2401").
Proof.
  split.
  - exact (proj1 (detectar_is_formatting "24" "01.1000" "")).
  - apply (proj2 (detectar_is_formatting "2401" "" ".10.00")). simpl. lia.
Defined.

(** X4.  No two categories of [IS_CATEGORIES] share a prefix, so the order
    of the list decides nothing: whenever the first four characters of the
    code are a prefix of a category, [detectar_is] returns that category. *)
Theorem detectar_is_any_match ncm cat :
  cat ∈ IS_CATEGORIES ->
  prefix4 ncm ∈ cat_prefixes cat ->
  detectar_is ncm
  = Some {| info_rate := cat_rate cat; info_desc := cat_desc cat |}.
Proof.
  unfold detectar_is. generalize (prefix4 ncm). intros p Hcat Hp.
  unfold IS_CATEGORIES in Hcat.
  repeat (apply elem_of_cons in Hcat as [->|Hcat]);
    [ .. | inversion Hcat ];
    simpl in Hp;
    repeat (apply elem_of_cons in Hp as [->|Hp]);
    solve [ reflexivity | inversion Hp ].
Qed.

(** A code of spirits, 2208, is in the second category. *)
Lemma detectar_is_any_match_witness :
  detectar_is (Some "2208.30.20")
  = Some {| info_rate := 0.20; info_desc := "Bebidas alcoólicas" |}.
Proof.
  assert (Hcat : {| cat_prefixes :=
                      ["2203"; "2204"; "2205"; "2206"; "2207"; "2208"];
                    cat_rate := 0.20; cat_desc := "Bebidas alcoólicas" |}
                 ∈ IS_CATEGORIES) by (right; left).
  apply (detectar_is_any_match (Some "2208.30.20") _ Hcat).
  by apply (bool_decide_unpack _).
Defined.

(** ** Which invoice line a result object is matched with *)

Lemma find_first {A} (p : A -> bool) l1 i l2 :
  p i = true -> (forall j, j ∈ l1 -> p j = false) ->
  find p (l1 ++ i :: l2)%list = Some i.
Proof.
  intros Hi. induction l1 as [|a l1 IH]; intros Hl1; simpl.
  - by rewrite Hi.
  - rewrite (Hl1 a) by left. apply IH. intros j Hj. apply Hl1. by right.
Qed.

Lemma find_nowhere {A} (p : A -> bool) l :
  (forall j, j ∈ l -> p j = false) -> find p l = None.
Proof.
  induction l as [|a l IH]; intros Hl; simpl; [reflexivity|].
  rewrite (Hl a) by left. apply IH. intros j Hj. apply Hl. by right.
Qed.

Lemma numero_eq_int nobj n i :
  Json.int_value nobj = Some n ->
  numero_eq nobj i = bool_decide (it_numero i = Some n).
Proof.
  intros Hn. unfold numero_eq. destruct (it_numero i) as [z|].
  - rewrite Hn. apply bool_decide_ext. split; congruence.
  - destruct nobj; try discriminate Hn; reflexivity.
Qed.

Lemma extrair_item_2026_inp to_float obj itens r :
  _extrair_item_2026 to_float obj itens = Ok r ->
  let inp := default empty_item (find (numero_eq (lr_numero r)) itens) in
  Json.get obj "nObj" (JInt 1) = Ok (lr_numero r)
  /\ lr_ncm r = default "" (it_ncm inp)
  /\ lr_descricao r
     = default (ItemN (lr_numero r)) (Text <$> it_descricao inp).
Proof.
  unfold _extrair_item_2026. intros H.
  do 15 bind_inv H. injection H as <-. simpl. auto.
Qed.

(** X5.  [_extrair_item_2026] takes the code and the description of a
    result object from the FIRST invoice line whose [numero] equals the
    object's [nObj]; the description falls back to ["Item <nObj>"] when
    that line has none.  When no line has that number, the code is the
    empty string and the description is ["Item <nObj>"]. *)
Theorem live_line_takes_first_match to_float obj itens r n :
  _extrair_item_2026 to_float obj itens = Ok r ->
  Json.int_value (lr_numero r) = Some n ->
  (forall l1 i l2,
     itens = (l1 ++ i :: l2)%list -> it_numero i = Some n ->
     (forall j, j ∈ l1 -> it_numero j <> Some n) ->
     lr_ncm r = default "" (it_ncm i)
     /\ lr_descricao r
        = default (ItemN (lr_numero r)) (Text <$> it_descricao i))
  /\ ((forall j, j ∈ itens -> it_numero j <> Some n) ->
      lr_ncm r = "" /\ lr_descricao r = ItemN (lr_numero r)).
Proof.
  intros H Hn. apply extrair_item_2026_inp in H as (_ & Hncm & Hdesc).
  split.
  - intros l1 i l2 -> Hi Hl1.
    rewrite find_first in Hncm, Hdesc; try done.
    + rewrite (numero_eq_int _ n) by done. by apply bool_decide_eq_true.
    + intros j Hj. rewrite (numero_eq_int _ n) by done.
      apply bool_decide_eq_false. by apply Hl1.
    + rewrite (numero_eq_int _ n) by done. by apply bool_decide_eq_true.
    + intros j Hj. rewrite (numero_eq_int _ n) by done.
      apply bool_decide_eq_false. by apply Hl1.
  - intros Hnone.
    rewrite find_nowhere in Hncm, Hdesc; try done.
    all: intros j Hj; rewrite (numero_eq_int _ n) by done;
      apply bool_decide_eq_false; by apply Hnone.
Qed.

Lemma build_inp_by_num_app idx l1 l2 acc :
  build_inp_by_num idx (l1 ++ l2)%list acc
  = build_inp_by_num (idx + Z.of_nat (length l1)) l2
      (build_inp_by_num idx l1 acc).
Proof.
  revert idx acc; induction l1 as [|a l1 IH]; intros idx acc; simpl.
  - by rewrite Z.add_0_r.
  - rewrite IH. f_equal. lia.
Qed.

Lemma build_inp_by_num_miss itens idx acc n :
  (forall k j, itens !! k = Some j ->
     default (idx + Z.of_nat k + 1) (it_numero j) <> n) ->
  build_inp_by_num idx itens acc !! n = acc !! n.
Proof.
  revert idx acc; induction itens as [|i itens IH]; intros idx acc Hmiss;
    simpl; [reflexivity|].
  rewrite IH.
  - apply lookup_insert_ne. specialize (Hmiss 0%nat i eq_refl).
    by rewrite Z.add_0_r in Hmiss.
  - intros k j Hk. specialize (Hmiss (S k) j Hk).
    by replace (idx + 1 + Z.of_nat k + 1) with (idx + Z.of_nat (S k) + 1)
      by lia.
Qed.

Lemma build_inp_by_num_last idx l1 i l2 acc n :
  default (idx + Z.of_nat (length l1) + 1) (it_numero i) = n ->
  (forall k j, l2 !! k = Some j ->
     default (idx + Z.of_nat (length l1 + 1 + k) + 1) (it_numero j) <> n) ->
  build_inp_by_num idx (l1 ++ i :: l2)%list acc !! n = Some i.
Proof.
  intros Hi Hl2. rewrite build_inp_by_num_app. simpl.
  rewrite build_inp_by_num_miss.
  - rewrite Hi. apply lookup_insert_eq.
  - intros k j Hk. specialize (Hl2 k j Hk).
    by replace (idx + Z.of_nat (length l1) + 1 + Z.of_nat k + 1)
      with (idx + Z.of_nat (length l1 + 1 + k) + 1) by lia.
Qed.

Lemma extrair_item_rtc_inp to_float inp_by_num obj r n :
  extrair_item_rtc to_float inp_by_num obj = Ok r ->
  Json.int_value (lr_numero r) = Some n ->
  let inp := default empty_item (inp_by_num !! n) in
  lr_ncm r = default "" (it_ncm inp)
  /\ lr_descricao r
     = default (ItemN (lr_numero r)) (Text <$> it_descricao inp).
Proof.
  unfold extrair_item_rtc. intros H Hn.
  do 14 bind_inv H. bind_inv H. injection H as <-. simpl in *.
  unfold inp_lookup in Ha13. destruct (Json.hashable a); [|discriminate].
  injection Ha13 as <-. rewrite Hn. simpl. auto.
Qed.

Lemma extrair_itens_rtc_elem to_float objetos itens rs r :
  _extrair_itens_rtc to_float objetos itens = Ok rs -> r ∈ rs ->
  exists obj,
    extrair_item_rtc to_float (build_inp_by_num 0 itens ∅) obj = Ok r.
Proof.
  unfold _extrair_itens_rtc. intros H Hr. bind_inv H.
  apply res_mapM_Forall2 in H.
  destruct (Forall2_elem_r _ _ _ _ H Hr) as (obj & _ & Hobj). eauto.
Qed.

(** X6.  [_extrair_itens_rtc] takes the code and the description of a
    result object from the LAST invoice line whose key equals the object's
    [nObj], the key of a line being its [numero] or, when it has none, its
    position counted from 1.  When no line has that key, the code is the
    empty string and the description is ["Item <nObj>"]. *)
Theorem rtc_line_takes_last_match to_float objetos itens rs r n :
  _extrair_itens_rtc to_float objetos itens = Ok rs -> r ∈ rs ->
  Json.int_value (lr_numero r) = Some n ->
  (forall l1 i l2,
     itens = (l1 ++ i :: l2)%list ->
     default (Z.of_nat (length l1) + 1) (it_numero i) = n ->
     (forall k j, l2 !! k = Some j ->
        default (Z.of_nat (length l1 + 1 + k) + 1) (it_numero j) <> n) ->
     lr_ncm r = default "" (it_ncm i)
     /\ lr_descricao r
        = default (ItemN (lr_numero r)) (Text <$> it_descricao i))
  /\ ((forall k j, itens !! k = Some j ->
         default (Z.of_nat k + 1) (it_numero j) <> n) ->
      lr_ncm r = "" /\ lr_descricao r = ItemN (lr_numero r)).
Proof.
  intros H Hr Hn.
  destruct (extrair_itens_rtc_elem _ _ _ _ _ H Hr) as (obj & Hobj).
  apply (extrair_item_rtc_inp _ _ _ _ n) in Hobj as (Hncm & Hdesc); [|done].
  split.
  - intros l1 i l2 -> Hi Hl2.
    rewrite (build_inp_by_num_last 0 l1 i l2 ∅ n) in Hncm, Hdesc; done.
  - intros Hmiss.
    rewrite (build_inp_by_num_miss itens 0 ∅ n) in Hncm, Hdesc by done.
    by rewrite lookup_empty in Hncm, Hdesc.
Qed.

(** With two lines numbered 1, the object of line 1 is described by the
    first of them. *)
Lemma live_line_takes_first_match_witness :
  exists r,
    _extrair_item_2026 float_of_decimal bare_object [tobacco_line; beer_line]
    = Ok r
    /\ lr_ncm r = "2401".
Proof.
  destruct (_extrair_item_2026 float_of_decimal bare_object
              [tobacco_line; beer_line]) as [r|e] eqn:Hrun;
    [|vm_compute in Hrun; discriminate Hrun].
  assert (Hn : Json.int_value (lr_numero r) = Some 1)
    by (vm_compute in Hrun; injection Hrun as <-; reflexivity).
  destruct (live_line_takes_first_match _ _ _ _ 1 Hrun Hn) as [Hfirst _].
  destruct (Hfirst [] tobacco_line [beer_line] eq_refl eq_refl) as [Hncm _].
  { intros j Hj. inversion Hj. }
  exists r. split; [reflexivity | exact Hncm].
Defined.

(** With the same two lines, the per-year extractor describes the object of
    line 1 by the second of them. *)
Lemma rtc_line_takes_last_match_witness :
  exists r,
    _extrair_itens_rtc float_of_decimal (JArr [bare_object])
      [tobacco_line; beer_line] = Ok [r]
    /\ lr_ncm r = "2203" /\ lr_descricao r = Text "Cerveja".
Proof.
  destruct (_extrair_itens_rtc float_of_decimal (JArr [bare_object])
              [tobacco_line; beer_line]) as [rs|e] eqn:Hrun;
    [|vm_compute in Hrun; discriminate Hrun].
  assert (Hrs : exists r, rs = [r] /\ Json.int_value (lr_numero r) = Some 1)
    by (vm_compute in Hrun; injection Hrun as <-; eexists; split; reflexivity).
  destruct Hrs as (r & -> & Hn).
  destruct (rtc_line_takes_last_match _ _ _ _ r 1 Hrun
              (list_elem_of_here _ _) Hn) as [Hlast _].
  destruct (Hlast [tobacco_line] beer_line [] eq_refl eq_refl) as [Hncm Hdesc].
  { intros k j Hk. destruct k; discriminate Hk. }
  exists r. split; [reflexivity|]. split; [exact Hncm | exact Hdesc].
Defined.

(** ** The renumbering of [calcular_rtc] *)

Lemma renumber_input_lookup l idx k i :
  l !! k = Some i ->
  renumber_input idx l !! k
  = Some {| it_numero := Some (idx + Z.of_nat k + 1);
            it_ncm := Some (ii_ncm i);
            it_descricao := ii_descricao i;
            it_baseCalculo := Some (ii_baseCalculo i) |}.
Proof.
  revert idx k; induction l as [|a l IH]; intros idx k Hk; [discriminate|].
  destruct k as [|k]; simpl in *.
  - injection Hk as ->. by rewrite Z.add_0_r.
  - rewrite (IH _ _ Hk). do 3 f_equal. lia.
Qed.

Lemma renumber_input_length l idx : length (renumber_input idx l) = length l.
Proof. revert idx; induction l; intros; simpl; auto. Qed.

Lemma renumber_input_numero l idx k j :
  renumber_input idx l !! k = Some j ->
  it_numero j = Some (idx + Z.of_nat k + 1).
Proof.
  intros Hj. assert (Hlt := lookup_lt_Some _ _ _ Hj).
  rewrite renumber_input_length in Hlt.
  destruct (lookup_lt_is_Some_2 l k Hlt) as [i Hi].
  rewrite (renumber_input_lookup _ _ _ _ Hi) in Hj. by injection Hj as <-.
Qed.

(** After the renumbering, the dict of lines maps [k + 1] to the line at
    position [k], and nothing else. *)
Lemma build_renumbered l n :
  build_inp_by_num 0 (renumber_input 0 l) ∅ !! n
  = if decide (1 <= n <= Z.of_nat (length l))
    then renumber_input 0 l !! Z.to_nat (n - 1)
    else None.
Proof.
  set (itens := renumber_input 0 l).
  assert (Hnum : forall k j, itens !! k = Some j ->
                   it_numero j = Some (Z.of_nat k + 1)).
  { intros k j Hj. by rewrite (renumber_input_numero _ _ _ _ Hj). }
  assert (Hlen : length itens = length l) by apply renumber_input_length.
  destruct (decide _) as [Hin|Hout].
  - destruct (lookup_lt_is_Some_2 itens (Z.to_nat (n - 1))) as [j Hj]; [lia|].
    rewrite Hj. rewrite <- (take_drop_middle _ _ _ Hj).
    apply build_inp_by_num_last.
    + rewrite (Hnum _ _ Hj), length_take. cbn [from_option id]. lia.
    + intros k j' Hk. rewrite lookup_drop in Hk.
      rewrite (Hnum _ _ Hk), length_take. cbn [from_option id]. lia.
  - rewrite build_inp_by_num_miss; [apply lookup_empty|].
    intros k j Hj. rewrite (Hnum _ _ Hj). cbn [from_option id].
    assert (Hlt := lookup_lt_Some _ _ _ Hj). lia.
Qed.

Lemma respond_Success {A} (c : res A) d : respond c = Success d -> c = Ok d.
Proof. destruct c; [by intros [= ->] | discriminate]. Qed.

Lemma calcular_rtc_inv to_float to_str host net now nota d :
  calcular_rtc to_float to_str host net now nota = Success d ->
  calcular_projecao_rtc to_float host net (_base_payload now (nota_dict nota))
    (JArr (renumber_payload 0 (payload_itens nota)))
    (renumber_input 0 (nf_itens nota)) (tributos_atuais_of nota)
  = Ok (cd_transicao d)
  /\ cd_resultado2026 d = rebuilt_resultado2026 to_str (cd_transicao d)
  /\ cd_fonte d = fonte host /\ cd_metodo d = Some "rtc".
Proof.
  unfold calcular_rtc. intros H. apply respond_Success in H.
  bind_inv H. injection H as <-. simpl. auto.
Qed.

(** X7.  [calcular_rtc] renumbers the lines of the request 1, 2, 3, ...
    before it projects them, so a result object is matched with the request
    line at the position its [nObj] names, whatever [numero] the lines of
    the request carry: the object with [nObj = k + 1] takes the code and the
    description of the line at position [k], and an object whose [nObj] is
    no position of the request has an empty code and the description
    ["Item <nObj>"]. *)
Theorem rtc_endpoint_matches_by_position
    to_float to_str host net now nota d y r n :
  calcular_rtc to_float to_str host net now nota = Success d ->
  y ∈ cd_transicao d -> r ∈ yr_itens y ->
  Json.int_value (lr_numero r) = Some n ->
  (forall k i, nf_itens nota !! k = Some i -> n = Z.of_nat k + 1 ->
     lr_ncm r = ii_ncm i
     /\ lr_descricao r
        = default (ItemN (lr_numero r)) (Text <$> ii_descricao i))
  /\ (n < 1 \/ Z.of_nat (length (nf_itens nota)) < n ->
      lr_ncm r = "" /\ lr_descricao r = ItemN (lr_numero r)).
Proof.
  intros H Hy Hr Hn. apply calcular_rtc_inv in H as (H & _).
  destruct (calcular_projecao_rtc_inv _ _ _ _ _ _ _ _ _ H Hy)
    as (cfg & resultado & _ & _ & Hano).
  apply projecao_ano_inv in Hano as (_ & _ & (objetos & _ & Hitens) & _).
  destruct (extrair_itens_rtc_elem _ _ _ _ _ Hitens Hr) as (obj & Hobj).
  apply (extrair_item_rtc_inp _ _ _ _ n) in Hobj as (Hncm & Hdesc); [|done].
  rewrite build_renumbered in Hncm, Hdesc. split.
  - intros k i Hi ->. assert (Hlt := lookup_lt_Some _ _ _ Hi).
    rewrite decide_True in Hncm, Hdesc by lia.
    replace (Z.to_nat (Z.of_nat k + 1 - 1)) with k in Hncm, Hdesc by lia.
    rewrite (renumber_input_lookup _ _ _ _ Hi) in Hncm, Hdesc. auto.
  - intros Hout. rewrite decide_False in Hncm, Hdesc by lia. auto.
Qed.

(** The two lines of [example_nota] are both numbered 7; the object of
    line 2 is matched with the second of them. *)
Lemma rtc_endpoint_matches_by_position_witness :
  exists d y r,
    calcular_rtc float_of_decimal format_2f ONLINE_URL
      (dated_net "2026-01-01T12:00:00-03:00" two_objects_response)
      "2026-11-03T09:00:00-03:00" example_nota
    = Success d
    /\ y ∈ cd_transicao d /\ r ∈ yr_itens y
    /\ lr_numero r = JInt 2
    /\ lr_ncm r = "2203.00.00" /\ lr_descricao r = ItemN (JInt 2).
Proof.
  assert (H : match calcular_rtc float_of_decimal format_2f ONLINE_URL
                      (dated_net "2026-01-01T12:00:00-03:00"
                         two_objects_response)
                      "2026-11-03T09:00:00-03:00" example_nota with
              | Success d =>
                  (fun y => lr_numero <$> yr_itens y) <$> cd_transicao d
              | HTTPException _ => []
              end = [[JInt 1; JInt 2]]) by (vm_compute; reflexivity).
  destruct (calcular_rtc float_of_decimal format_2f ONLINE_URL
              (dated_net "2026-01-01T12:00:00-03:00" two_objects_response)
              "2026-11-03T09:00:00-03:00" example_nota) as [d|st] eqn:Hrun;
    [|discriminate H].
  destruct (cd_transicao d) as [|y ys] eqn:Hy; [discriminate H|].
  rewrite fmap_cons in H. injection H as H _.
  destruct (yr_itens y) as [|r0 [|r rs]] eqn:Hr; try discriminate H.
  injection H as _ Hnum _.
  assert (Hy' : y ∈ cd_transicao d) by (rewrite Hy; left).
  assert (Hr' : r ∈ yr_itens y) by (rewrite Hr; right; left).
  assert (Hn : Json.int_value (lr_numero r) = Some 2) by (by rewrite Hnum).
  destruct (rtc_endpoint_matches_by_position _ _ _ _ _ _ _ _ _ _
              Hrun Hy' Hr' Hn) as [Hpos _].
  destruct (Hpos 1%nat beer eq_refl eq_refl) as [Hncm Hdesc].
  exists d, y, r. rewrite Hnum in Hdesc. auto 10.
Defined.

(** ** When [calcular_transicao] returns *)

Lemma res_mapM_ext {A B} (f g : A -> res B) (l : list A) :
  Forall (fun a => f a = g a) l -> res_mapM f l = res_mapM g l.
Proof.
  induction 1 as [|a l Ha _ IH]; simpl; [reflexivity|]. by rewrite Ha, IH.
Qed.

Lemma res_mapM_cons {A B} (f : A -> res B) (a : A) (l : list A) :
  res_mapM f (a :: l) = (b ← f a; bs ← res_mapM f l; Ok (b :: bs)).
Proof. reflexivity. Qed.

Lemma Forall2_is_ok {A B} (f : A -> res B) (l : list A) (bs : list B) :
  Forall2 (fun a b => f a = Ok b) l bs ->
  Forall (fun a => is_ok (f a) = true) l.
Proof.
  induction 1 as [|a b l bs Ha _ IH]; constructor; [by rewrite Ha | done].
Qed.

Lemma transicao_ano_projected to_float to_float' objetos objetos' itens b cfg :
  cfg_ano cfg <> 2026 ->
  transicao_ano to_float objetos itens b cfg
  = transicao_ano to_float' objetos' itens b cfg.
Proof.
  intros Hne. apply Z.eqb_neq in Hne. unfold transicao_ano. by rewrite Hne.
Qed.

Lemma calcular_transicao_live_inv to_float api itens ta anos :
  calcular_transicao to_float api itens ta = Ok anos ->
  exists objetos objs,
    Json.get api "objetos" (JArr []) = Ok objetos
    /\ Json.iter objetos = Ok objs
    /\ Forall (fun obj =>
                 is_ok (_extrair_item_2026 to_float obj itens) = true) objs.
Proof.
  unfold calcular_transicao. intros H.
  apply bind_Ok_inv in H as (objetos & Hget & H).
  apply res_mapM_Forall2 in H. unfold TRANSITION_YEARS in H.
  apply Forall2_cons_inv_l in H as (y & ys & Hy & _ & _).
  apply transicao_ano_inv in Hy as (_ & _ & _ & _ & _ & Hlive).
  destruct (Hlive eq_refl) as (objs & Hiter & Hall).
  exists objetos, objs. repeat split; try done. by eapply Forall2_is_ok.
Qed.

Lemma calcular_transicao_total to_float api itens ta objetos objs :
  Json.get api "objetos" (JArr []) = Ok objetos ->
  Json.iter objetos = Ok objs ->
  Forall (fun obj => is_ok (_extrair_item_2026 to_float obj itens) = true)
    objs ->
  exists anos, calcular_transicao to_float api itens ta = Ok anos.
Proof.
  intros Hget Hiter Hall.
  unfold calcular_transicao. rewrite Hget. cbn [mbind res_bind].
  destruct (res_mapM_total
              (transicao_ano to_float objetos itens (legacy_base ta))
              (fun _ _ => True) TRANSITION_YEARS) as (anos & -> & _);
    [|eauto].
  apply Forall_forall. intros cfg _. unfold transicao_ano.
  destruct (cfg_ano cfg =? 2026); simpl; [|eauto].
  rewrite Hiter. simpl.
  destruct (res_mapM_total (fun obj => _extrair_item_2026 to_float obj itens)
              (fun _ _ => True) objs) as (rs & -> & _); [|simpl; eauto].
  eapply Forall_impl; [exact Hall|]. simpl. intros obj Hobj.
  apply is_ok_true in Hobj as [r ->]. eauto.
Qed.

(** X8.  [calcular_transicao] returns exactly when the live result can be
    read: [resultado_api] is a dict, its [objetos] can be iterated, and
    [_extrair_item_2026] accepts each of its objects.  Neither the invoice
    lines nor the legacy baseline, nor any of the seven projected years,
    can make it raise. *)
Theorem calcular_transicao_returns_iff to_float api itens ta :
  is_ok (calcular_transicao to_float api itens ta) = true
  <-> exists objetos objs,
        Json.get api "objetos" (JArr []) = Ok objetos
        /\ Json.iter objetos = Ok objs
        /\ Forall (fun obj =>
                     is_ok (_extrair_item_2026 to_float obj itens) = true) objs.
Proof.
  split.
  - intros H. apply is_ok_true in H as [anos H].
    by eapply calcular_transicao_live_inv.
  - intros (objetos & objs & Hget & Hiter & Hall).
    destruct (calcular_transicao_total to_float api itens ta _ _
                Hget Hiter Hall) as [anos ->].
    reflexivity.
Qed.

(** X9.  The seven projected years of [calcular_transicao] do not depend on
    the calculator: two runs on the same invoice lines and baseline return
    the same entries for 2027 to 2033, whatever the two live results are,
    and differ at most in the first entry, that of 2026. *)
Theorem projected_years_ignore_the_calculator
    to_float1 to_float2 api1 api2 itens ta anos1 anos2 :
  calcular_transicao to_float1 api1 itens ta = Ok anos1 ->
  calcular_transicao to_float2 api2 itens ta = Ok anos2 ->
  exists y1 y2 rest,
    anos1 = y1 :: rest /\ anos2 = y2 :: rest
    /\ yr_ano y1 = 2026 /\ yr_ano y2 = 2026
    /\ yr_ano <$> rest = [2027; 2028; 2029; 2030; 2031; 2032; 2033].
Proof.
  unfold calcular_transicao. intros H1 H2.
  apply bind_Ok_inv in H1 as (o1 & _ & H1).
  apply bind_Ok_inv in H2 as (o2 & _ & H2).
  unfold TRANSITION_YEARS in H1, H2.
  rewrite res_mapM_cons in H1, H2.
  apply bind_Ok_inv in H1 as (y1 & Hy1 & H1).
  apply bind_Ok_inv in H1 as (rest1 & Hrest1 & H1). injection H1 as <-.
  apply bind_Ok_inv in H2 as (y2 & Hy2 & H2).
  apply bind_Ok_inv in H2 as (rest2 & Hrest2 & H2). injection H2 as <-.
  rewrite (res_mapM_ext _ (transicao_ano to_float2 o2 itens (legacy_base ta)))
    in Hrest1.
  2:{ repeat constructor; apply transicao_ano_projected; discriminate. }
  rewrite Hrest1 in Hrest2. injection Hrest2 as <-.
  exists y1, y2, rest1. repeat split.
  - by apply transicao_ano_inv in Hy1 as (-> & _).
  - by apply transicao_ano_inv in Hy2 as (-> & _).
  - apply res_mapM_Forall2 in Hrest1.
    repeat (apply Forall2_cons_inv_l in Hrest1 as (? & ? & Hy & Hrest1 & ->);
            apply transicao_ano_inv in Hy as (Hy & _);
            rewrite fmap_cons, Hy; clear Hy).
    apply Forall2_nil_inv_l in Hrest1 as ->. reflexivity.
Qed.

(** Two runs on [tobacco_line]: one on a result with an object, one on a
    result without objects. *)
Lemma projected_years_ignore_the_calculator_witness :
  exists y1 y2 rest,
    calcular_transicao float_of_decimal (rtc_response (JStr "5.00"))
      [tobacco_line] None = Ok (y1 :: rest)
    /\ calcular_transicao float_of_decimal (JObj ∅) [tobacco_line] None
       = Ok (y2 :: rest)
    /\ length (yr_itens y1) = 1%nat /\ length (yr_itens y2) = 0%nat.
Proof.
  assert (K1 : (fun a => length <$> (yr_itens <$> head a))
                 <$> calcular_transicao float_of_decimal
                       (rtc_response (JStr "5.00")) [tobacco_line] None
               = Ok (Some 1%nat)) by (vm_compute; reflexivity).
  assert (K2 : (fun a => length <$> (yr_itens <$> head a))
                 <$> calcular_transicao float_of_decimal (JObj ∅)
                       [tobacco_line] None
               = Ok (Some 0%nat)) by (vm_compute; reflexivity).
  destruct (calcular_transicao float_of_decimal (rtc_response (JStr "5.00"))
              [tobacco_line] None) as [a1|e] eqn:H1; [|discriminate K1].
  destruct (calcular_transicao float_of_decimal (JObj ∅) [tobacco_line] None)
    as [a2|e] eqn:H2; [|discriminate K2].
  destruct (projected_years_ignore_the_calculator _ _ _ _ _ _ _ _ H1 H2)
    as (y1 & y2 & rest & -> & -> & _).
  exists y1, y2, rest. split; [reflexivity|]. split; [reflexivity|].
  simpl in K1, K2. injection K1 as K1. injection K2 as K2. auto.
Defined.

(** ** The two extractors *)

Lemma num_field_or0_of_num_field to_float d k x :
  num_field to_float d k = Ok x ->
  exists x', num_field_or0 to_float d k = Ok x'.
Proof.
  unfold num_field, num_field_or0. intros H. bind_inv H. rewrite Ha. simpl.
  apply is_ok_true, py_float_or0. by rewrite H.
Qed.

(** X10.  The extractor of the per-year mode accepts every result object
    that the extractor of the live mode accepts, provided the [nObj] of the
    object can be a dict key: reading a field with [or 0] never raises
    where reading it without does not. *)
Theorem rtc_extractor_accepts_more to_float obj itens inp_by_num r :
  _extrair_item_2026 to_float obj itens = Ok r ->
  Json.hashable (lr_numero r) = true ->
  is_ok (extrair_item_rtc to_float inp_by_num obj) = true.
Proof.
  unfold _extrair_item_2026. intros H Hhash.
  do 15 bind_inv H. injection H as <-. simpl in Hhash.
  unfold extrair_item_rtc, rtc_vIS, inp_lookup.
  repeat match goal with
  | H : Json.get ?d ?k ?v = Ok _ |- context [Json.get ?d ?k ?v] =>
      rewrite H; simpl
  | H : num_field ?f ?d ?k = Ok _ |- context [num_field_or0 ?f ?d ?k] =>
      destruct (num_field_or0_of_num_field _ _ _ _ H) as [? ->]; simpl
  end.
  rewrite Hhash. reflexivity.
Qed.

(** The object of line 1 with excise 5.00 is accepted by both; an object
    whose excise is [null] is accepted by the per-year extractor only. *)
Lemma rtc_extractor_accepts_more_witness :
  is_ok (extrair_item_rtc float_of_decimal ∅ (rtc_object (JStr "5.00"))) = true
  /\ is_ok (extrair_item_rtc float_of_decimal ∅ (rtc_object JNull)) = true
  /\ _extrair_item_2026 float_of_decimal (rtc_object JNull) []
     = Raise TypeError.
Proof.
  split; [|split; reflexivity].
  destruct (_extrair_item_2026 float_of_decimal (rtc_object (JStr "5.00")) [])
    as [r|e] eqn:Hrun; [|vm_compute in Hrun; discriminate Hrun].
  apply (rtc_extractor_accepts_more _ _ _ _ r Hrun).
  vm_compute in Hrun. injection Hrun as <-. reflexivity.
Defined.

(** ** The extinction of the legacy taxes *)







(** ** The per-line calls of [POST /api/calcular] *)

Lemma aggregate_step_ok to_float acc obj itens :
  is_ok (_extrair_item_2026 to_float obj itens) = true ->
  exists acc', aggregate_step to_float acc obj = Ok acc'.
Proof.
  intros H. apply is_ok_true in H as [r H].
  unfold _extrair_item_2026 in H. do 15 bind_inv H. clear H.
  unfold aggregate_step.
  repeat match goal with
  | H : Json.get ?d ?k ?v = Ok _ |- context [Json.get ?d ?k ?v] =>
      rewrite H; simpl
  | H : num_field ?f ?d ?k = Ok _ |- context [num_field_or0 ?f ?d ?k] =>
      destruct (num_field_or0_of_num_field _ _ _ _ H) as [? ->]; simpl
  end.
  eauto.
Qed.

Lemma aggregate_loop_ok to_float objs itens :
  Forall (fun obj => is_ok (_extrair_item_2026 to_float obj itens) = true)
    objs ->
  forall acc, exists s, aggregate_loop to_float acc objs = Ok s.
Proof.
  induction 1 as [|obj objs Hobj _ IH]; intros acc; simpl; [eauto|].
  destruct (aggregate_step_ok to_float acc obj itens Hobj) as [acc' ->].
  simpl. apply IH.
Qed.

Lemma aggregate_total_ok to_float objs itens :
  Forall (fun obj => is_ok (_extrair_item_2026 to_float obj itens) = true)
    objs ->
  exists total, _aggregate_total to_float objs = Ok total.
Proof.
  intros H. unfold _aggregate_total.
  destruct (aggregate_loop_ok to_float objs itens H
              {| total_bc := 0; total_ibs := 0; total_cbs := 0;
                 total_is := 0 |}) as [s ->].
  simpl. eauto.
Qed.

Lemma por_item_loop_inv host net base itens acc all :
  por_item_loop host net base itens acc = Ok all ->
  exists parts,
    Forall2 (fun item part => exists result objetos,
               calcular_tributos host net (<["itens" := JArr [item]]> base)
               = Ok result
               /\ Json.get result "objetos" (JArr []) = Ok objetos
               /\ Json.iter objetos = Ok part) itens parts
    /\ all = (acc ++ concat parts)%list.
Proof.
  revert acc; induction itens as [|item itens IH]; intros acc H; simpl in H.
  - injection H as <-. exists []. split; [constructor|].
    simpl. by rewrite app_nil_r.
  - apply bind_Ok_inv in H as (result & Hcall & H).
    apply bind_Ok_inv in H as (objetos & Hget & H).
    apply bind_Ok_inv in H as (part & Hiter & H).
    apply IH in H as (parts & Hparts & ->).
    exists (part :: parts). split; [constructor; eauto|].
    simpl. by rewrite app_assoc.
Qed.


(** X12.  [_calcular_por_item] calls the calculator once per line, in the
    order of the lines, each call carrying that line alone under
    ["itens"]; the objects of the answers are concatenated in that order
    under ["objetos"], and ["total"] is [_aggregate_total] of all of
    them. *)
Theorem per_item_calls_concatenate to_float host net base itens r :
  _calcular_por_item to_float host net base itens = Ok r ->
  exists parts total,
    Forall2 (fun item part => exists result objetos,
               calcular_tributos host net (<["itens" := JArr [item]]> base)
               = Ok result
               /\ Json.get result "objetos" (JArr []) = Ok objetos
               /\ Json.iter objetos = Ok part) itens parts
    /\ _aggregate_total to_float (concat parts) = Ok total
    /\ r = JObj {[ "objetos" := JArr (concat parts); "total" := total ]}.
Proof.
  unfold _calcular_por_item. intros H.
  apply bind_Ok_inv in H as (all & Hloop & H).
  apply bind_Ok_inv in H as (total & Htotal & H). injection H as <-.
  apply por_item_loop_inv in Hloop as (parts & Hparts & ->).
  simpl in *. eauto.
Qed.

(** Two lines, each answered with the object of [bare_response]: the two
    objects are returned, in the order of the calls. *)
Lemma per_item_calls_concatenate_witness :
  exists total,
    _calcular_por_item float_of_decimal ONLINE_URL
      (fun _ _ => Ok bare_response) ∅ [JObj ∅; JObj ∅]
    = Ok (JObj {[ "objetos" := JArr [bare_object; bare_object];
                  "total" := total ]}).
Proof.
  assert (Hok : is_ok (_calcular_por_item float_of_decimal ONLINE_URL
                         (fun _ _ => Ok bare_response) ∅ [JObj ∅; JObj ∅])
                = true) by (vm_compute; reflexivity).
  destruct (_calcular_por_item float_of_decimal ONLINE_URL
              (fun _ _ => Ok bare_response) ∅ [JObj ∅; JObj ∅])
    as [r|e] eqn:Hrun; [clear Hok | discriminate Hok].
  destruct (per_item_calls_concatenate _ _ _ _ _ _ Hrun)
    as (parts & total & Hparts & _ & ->).
  exists total.
  apply Forall2_cons_inv_l in Hparts
    as (p1 & ps & (r1 & o1 & H1 & G1 & I1) & Hparts & ->).
  apply Forall2_cons_inv_l in Hparts
    as (p2 & ps' & (r2 & o2 & H2 & G2 & I2) & Hparts & ->).
  apply Forall2_nil_inv_l in Hparts as ->.
  injection H1 as <-. injection H2 as <-.
  injection G1 as <-. injection G2 as <-.
  injection I1 as <-. injection I2 as <-. reflexivity.
Defined.




Lemma calcular_inv to_float host net now nota d :
  calcular to_float host net now nota = Success d ->
  exists resultado_api,
    _calcular_por_item to_float host net (_base_payload now (nota_dict nota))
      (JObj <$> payload_itens nota) = Ok resultado_api
    /\ calcular_transicao to_float resultado_api (item_view <$> nf_itens nota)
         (tributos_atuais_of nota) = Ok (cd_transicao d)
    /\ cd_resultado2026 d = resultado_api
    /\ cd_fonte d = fonte host /\ cd_metodo d = None.
Proof.
  unfold calcular. intros H. apply respond_Success in H.
  apply bind_Ok_inv in H as (resultado_api & Hcall & H).
  apply bind_Ok_inv in H as (transicao & Htrans & H).
  injection H as <-. simpl. eauto 10.
Qed.

(** X14.  [POST /api/calcular] answers with success exactly when every
    per-line call returns objects that can be iterated and
    [_extrair_item_2026] accepts each of them: summing the totals never
    fails on objects that the extractor accepts. *)
Theorem calcular_succeeds_iff to_float host net now nota :
  (exists d, calcular to_float host net now nota = Success d)
  <-> exists objs,
        por_item_loop host net (_base_payload now (nota_dict nota))
          (JObj <$> payload_itens nota) [] = Ok objs
        /\ Forall (fun obj =>
                     is_ok (_extrair_item_2026 to_float obj
                              (item_view <$> nf_itens nota)) = true) objs.
Proof.
  split.
  - intros (d & H). apply calcular_inv in H as (api & Hcall & Htrans & _).
    unfold _calcular_por_item in Hcall.
    apply bind_Ok_inv in Hcall as (objs & Hloop & Hcall).
    apply bind_Ok_inv in Hcall as (total & _ & Hcall). injection Hcall as <-.
    exists objs. split; [exact Hloop|].
    apply calcular_transicao_live_inv in Htrans
      as (objetos & objs' & Hget & Hiter & Hall).
    simpl in Hget. rewrite lookup_insert_eq in Hget. simpl in Hget.
    injection Hget as <-. simpl in Hiter. by injection Hiter as <-.
  - intros (objs & Hloop & Hall). unfold calcular, _calcular_por_item.
    rewrite Hloop. cbn [mbind res_bind].
    destruct (aggregate_total_ok _ _ _ Hall) as (total & ->).
    cbn [mbind res_bind].
    destruct (calcular_transicao_total to_float
                (JObj {[ "objetos" := JArr objs; "total" := total ]})
                (item_view <$> nf_itens nota) (tributos_atuais_of nota)
                (JArr objs) objs) as (anos & ->); [done | done | exact Hall |].
    simpl. eauto.
Qed.

(** X15.  A request without lines makes no call: [POST /api/calcular]
    answers with success whatever the state of the network, with no object,
    totals written ["0.00"], and the eight years, none of which has a
    line. *)
Theorem calcular_without_lines to_float host net now nota :
  nf_itens nota = [] ->
  exists transicao,
    calcular to_float host net now nota
    = Success {|
        cd_resultado2026 :=
          JObj {[ "objetos" := JArr [];
                  "total" := JObj {[ "tribCalc" := JObj {[ "IBSCBSTot" := JObj {[
                    "vBCIBSCBS" := JStr "0.00";
                    "gIBS" := JObj {[ "vIBS" := JStr "0.00" ]};
                    "gCBS" := JObj {[ "vCBS" := JStr "0.00" ]};
                    "gIS" := JObj {[ "vIS" := JStr "0.00" ]} ]} ]} ]} ]};
        cd_transicao := transicao;
        cd_fonte := fonte host;
        cd_metodo := None |}
    /\ yr_ano <$> transicao
       = [2026; 2027; 2028; 2029; 2030; 2031; 2032; 2033]
    /\ Forall (fun y => yr_itens y = []) transicao.
Proof.
  intros Hnil. unfold calcular, payload_itens. rewrite Hnil.
  eexists. split; [reflexivity|]. split; [reflexivity|].
  repeat constructor.
Qed.

(** A request without lines, with no host reachable. *)
Lemma calcular_without_lines_witness :
  exists d,
    calcular float_of_decimal ONLINE_URL down_net "2026-11-03T09:00:00-03:00"
      {| nf_id := ""; nf_versao := "1.0.0";
         nf_dataHoraEmissao := "2026-11-03T09:00:00-03:00";
         nf_municipio := 3550308; nf_uf := "SP"; nf_itens := [];
         nf_tributosAtuais := None |}
    = Success d
    /\ length (cd_transicao d) = 8%nat.
Proof.
  destruct (calcular_without_lines float_of_decimal ONLINE_URL down_net
              "2026-11-03T09:00:00-03:00"
              {| nf_id := ""; nf_versao := "1.0.0";
                 nf_dataHoraEmissao := "2026-11-03T09:00:00-03:00";
                 nf_municipio := 3550308; nf_uf := "SP"; nf_itens := [];
                 nf_tributosAtuais := None |} eq_refl)
    as (transicao & -> & Hanos & _).
  eexists. split; [reflexivity|]. simpl.
  rewrite <- (length_fmap yr_ano), Hanos. reflexivity.
Defined.

(** ** The answers of [POST /api/calcular-rtc] *)

Lemma post_loop_all_fail net urls last_exc payload :
  (forall url p, is_ok (net url p) = false) ->
  is_ok (post_loop net urls last_exc payload) = false.
Proof.
  intros Hfail. revert last_exc.
  induction urls as [|url urls IH]; intros last_exc; simpl; [reflexivity|].
  specialize (Hfail (url +:+ "/api/calculadora/regime-geral") payload).
  destruct (net _ payload) as [body|e]; [discriminate Hfail|].
  destruct e; auto.
Qed.

Lemma collect_years_all_failed to_float itens b pairs :
  Forall (fun p => is_ok p = false) pairs ->
  collect_years to_float itens b pairs = Ok [].
Proof.
  induction 1 as [|[[cfg r]|e] pairs Hp _ IH]; simpl;
    [reflexivity | discriminate Hp | exact IH].
Qed.

(** X16.  [POST /api/calcular-rtc] never reports that the calculator is
    down: when every request to every host fails, for whatever reason, it
    answers with success, an empty list of years, and a [resultado2026]
    without objects and with an empty total. *)
Theorem rtc_endpoint_hides_outage to_float to_str host net now nota :
  (forall url p, is_ok (net url p) = false) ->
  calcular_rtc to_float to_str host net now nota
  = Success {| cd_resultado2026 :=
                 JObj {[ "objetos" := JArr []; "total" := JObj ∅ ]};
               cd_transicao := [];
               cd_fonte := fonte host;
               cd_metodo := Some "rtc" |}.
Proof.
  intros Hfail. unfold calcular_rtc, calcular_projecao_rtc.
  rewrite collect_years_all_failed; [reflexivity|].
  apply Forall_fmap, Forall_forall. intros cfg _. simpl.
  unfold _task, _post_year.
  pose proof (post_loop_all_fail net
                (host :: (if decide (host = LOCAL_URL) then []
                          else [LOCAL_URL]))
                ConnectError
                (year_payload (_base_payload now (nota_dict nota))
                   (JArr (renumber_payload 0 (payload_itens nota)))
                   (cfg_ano cfg)) Hfail) as Hpost.
  destruct (post_loop _ _ _ _); [discriminate Hpost | reflexivity].
Qed.

(** With no host reachable, the two endpoints answer differently. *)
Lemma rtc_endpoint_hides_outage_witness :
  (exists d,
     calcular_rtc float_of_decimal format_2f ONLINE_URL down_net
       "2026-11-03T09:00:00-03:00" example_nota = Success d
     /\ cd_transicao d = [])
  /\ calcular float_of_decimal ONLINE_URL down_net
       "2026-11-03T09:00:00-03:00" example_nota
     = HTTPException (Code 503).
Proof.
  split; [|reflexivity].
  eexists. split.
  - apply (rtc_endpoint_hides_outage float_of_decimal format_2f ONLINE_URL
             down_net "2026-11-03T09:00:00-03:00" example_nota).
    reflexivity.
  - reflexivity.
Defined.

Lemma bind_Raise_inv {A B} (c : res A) (k : A -> res B) e :
  c ≫= k = Raise e -> c = Raise e \/ exists a, c = Ok a /\ k a = Raise e.
Proof.
  destruct c as [a|e']; simpl; [eauto|]. intros [= ->]. by left.
Qed.

Lemma get_Raise d k v e : Json.get d k v = Raise e -> e = AttributeError.
Proof. destruct d; simpl; congruence. Qed.

Lemma iter_Raise v e : Json.iter v = Raise e -> e = TypeError.
Proof. destruct v; simpl; congruence. Qed.

Lemma res_mapM_Raise {A B} (P : pyexn -> Prop) (f : A -> res B) l e :
  (forall a e, f a = Raise e -> P e) -> res_mapM f l = Raise e -> P e.
Proof.
  intros Hf. induction l as [|a l IH]; simpl; [discriminate|].
  intros H. apply bind_Raise_inv in H as [H | (b & _ & H)]; [eauto|].
  apply bind_Raise_inv in H as [H | (bs & _ & H)]; [auto | discriminate].
Qed.

Section DataErrors.

Variable to_float : string -> res float.
Hypothesis to_float_raises : forall s e, to_float s = Raise e -> e = ValueError.

Lemma py_float_Raise v e :
  py_float to_float v = Raise e -> error_status e = Code 500.
Proof.
  destruct v as [|b|z|x|s|l|m]; simpl; intros H;
    try discriminate H; try (by injection H as <-).
  - unfold Py.float_of_Z in H.
    destruct (binary_normalize prec emax z 0 false);
      try discriminate H; by injection H as <-.
  - by rewrite (to_float_raises _ _ H).
Qed.

Lemma num_field_or0_Raise d k e :
  num_field_or0 to_float d k = Raise e -> error_status e = Code 500.
Proof.
  unfold num_field_or0. intros H.
  apply bind_Raise_inv in H as [H | (v & _ & H)].
  - by rewrite (get_Raise _ _ _ _ H).
  - by apply py_float_Raise in H.
Qed.

Lemma extrair_item_rtc_Raise inp_by_num obj e :
  extrair_item_rtc to_float inp_by_num obj = Raise e ->
  error_status e = Code 500.
Proof.
  unfold extrair_item_rtc, rtc_vIS, inp_lookup. intros H.
  repeat (apply bind_Raise_inv in H as [H | (? & _ & H)]);
    try (by rewrite (get_Raise _ _ _ _ H));
    try (by apply num_field_or0_Raise in H);
    try (by apply py_float_Raise in H);
    try discriminate H.
  all: destruct (Json.hashable _); [discriminate H|]; by injection H as <-.
Qed.

Lemma projecao_ano_Raise itens b cfg resultado e :
  projecao_ano to_float itens b cfg resultado = Raise e ->
  error_status e = Code 500.
Proof.
  unfold projecao_ano, _extrair_itens_rtc. intros H.
  apply bind_Raise_inv in H as [H | (objetos & _ & H)];
    [by rewrite (get_Raise _ _ _ _ H)|].
  apply bind_Raise_inv in H as [H | (itens_ano & _ & H)].
  - apply bind_Raise_inv in H as [H | (objs & _ & H)];
      [by rewrite (iter_Raise _ _ H)|].
    revert H.
    apply (res_mapM_Raise (fun e => error_status e = Code 500)).
    apply extrair_item_rtc_Raise.
  - cbv zeta in H.
    destruct (effective_rate_total
                (tot_cbs (year_totals b cfg itens_ano))
                (Py.sum (lr_baseCalculo <$> itens_ano))) as [v1 Hv1].
    destruct (effective_rate_total
                (tot_ibs (year_totals b cfg itens_ano))
                (Py.sum (lr_baseCalculo <$> itens_ano))) as [v2 Hv2].
    rewrite Hv1 in H. cbn [mbind res_bind] in H. rewrite Hv2 in H.
    discriminate H.
Qed.

Lemma collect_years_Raise itens b pairs e :
  collect_years to_float itens b pairs = Raise e -> error_status e = Code 500.
Proof.
  induction pairs as [|[[cfg r]|e'] pairs IH]; simpl; [discriminate| |exact IH].
  intros H. apply bind_Raise_inv in H as [H | (y & _ & H)];
    [by apply projecao_ano_Raise in H|].
  apply bind_Raise_inv in H as [H | (ys & _ & H)]; [auto | discriminate H].
Qed.

End DataErrors.

(** X17.  The only error status of [POST /api/calcular-rtc] is 500: the
    failures of the calls are dropped, so neither 503 nor a status code of
    the calculator is ever passed on, and what is left to fail is the
    reading of the responses.  ([float] of a string raises nothing but
    [ValueError].) *)
Theorem rtc_endpoint_errors_are_500 to_float to_str host net now nota st :
  (forall s e, to_float s = Raise e -> e = ValueError) ->
  calcular_rtc to_float to_str host net now nota = HTTPException st ->
  st = Code 500.
Proof.
  intros Hfloat. unfold calcular_rtc, calcular_projecao_rtc.
  destruct (collect_years _ _ _ _) as [anos|e] eqn:Hrun; simpl;
    [discriminate|].
  intros [= <-]. by eapply collect_years_Raise.
Qed.

Lemma float_of_decimal_raises s e :
  float_of_decimal s = Raise e -> e = ValueError.
Proof.
  unfold float_of_decimal.
  destruct (match s with
            | String "-"%char s' => (true, s')
            | String "+"%char s' => (false, s')
            | _ => (false, s)
            end) as [neg body].
  destruct (split_dot body) as [ip fp].
  destruct (_ =? _)%nat; [congruence|].
  destruct (digits_value _ _); congruence.
Qed.

(** The calculator answers the request of 2026 with [null]: reading it
    fails, and the status is 500. *)
Lemma rtc_endpoint_errors_are_500_witness :
  calcular_rtc float_of_decimal format_2f ONLINE_URL
    (dated_net "2026-01-01T12:00:00-03:00" JNull)
    "2026-11-03T09:00:00-03:00" example_nota
  = HTTPException (Code 500).
Proof.
  destruct (calcular_rtc float_of_decimal format_2f ONLINE_URL
              (dated_net "2026-01-01T12:00:00-03:00" JNull)
              "2026-11-03T09:00:00-03:00" example_nota) as [d|st] eqn:Hrun;
    [vm_compute in Hrun; discriminate Hrun|].
  f_equal.
  exact (rtc_endpoint_errors_are_500 _ _ _ _ _ _ _
           float_of_decimal_raises Hrun).
Defined.

(** X18.  The [resultado2026] of [POST /api/calcular-rtc] is rebuilt from
    the first year that was returned, one object per line of that year,
    which is 2026 only if the call of 2026 succeeded: when that call
    failed and a later year was returned, [resultado2026] carries the
    lines of that later year. *)
Theorem resultado2026_is_first_returned_year
    to_float to_str host net now nota d first rest :
  let base := _base_payload now (nota_dict nota) in
  let norm := JArr (renumber_payload 0 (payload_itens nota)) in
  calcular_rtc to_float to_str host net now nota = Success d ->
  cd_transicao d = first :: rest ->
  (exists m, cd_resultado2026 d = JObj m
     /\ m !! "objetos" = Some (JArr (rebuilt_object to_str <$> yr_itens first)))
  /\ (is_ok (_post_year host net 2026 (year_payload base norm 2026)) = false ->
      2027 <= yr_ano first).
Proof.
  intros base norm H Hfirst.
  apply calcular_rtc_inv in H as (Hrun & Hres & _). split.
  - rewrite Hres, Hfirst. simpl. eexists. split; [reflexivity|].
    by rewrite lookup_insert_eq.
  - intros Hfail.
    assert (Hin : first ∈ cd_transicao d) by (rewrite Hfirst; left).
    destruct (calcular_projecao_rtc_inv _ _ _ _ _ _ _ _ _ Hrun Hin)
      as (cfg & resultado & Hcfg & Hcall & Hano).
    apply projecao_ano_inv in Hano as (-> & _).
    fold base norm in Hcall. revert cfg Hcfg Hcall.
    apply (cfg_cases (fun cfg =>
             _post_year host net (cfg_ano cfg)
               (year_payload base norm (cfg_ano cfg)) = Ok resultado ->
             2027 <= cfg_ano cfg)).
    unfold TRANSITION_YEARS.
    repeat constructor; cbn [cfg_ano]; intros Hcall; try lia.
    rewrite Hcall in Hfail. discriminate Hfail.
Qed.

(** Only the request of 2027 is answered: [resultado2026] is rebuilt from
    the entry of 2027. *)
Lemma resultado2026_is_first_returned_year_witness :
  exists d first rest,
    calcular_rtc float_of_decimal format_2f ONLINE_URL
      (dated_net "2027-01-01T12:00:00-03:00" two_objects_response)
      "2026-11-03T09:00:00-03:00" example_nota = Success d
    /\ cd_transicao d = first :: rest
    /\ yr_ano first = 2027
    /\ exists m, cd_resultado2026 d = JObj m
         /\ m !! "objetos"
            = Some (JArr (rebuilt_object format_2f <$> yr_itens first)).
Proof.
  assert (H : match calcular_rtc float_of_decimal format_2f ONLINE_URL
                      (dated_net "2027-01-01T12:00:00-03:00"
                         two_objects_response)
                      "2026-11-03T09:00:00-03:00" example_nota with
              | Success d => yr_ano <$> cd_transicao d
              | HTTPException _ => []
              end = [2027]) by (vm_compute; reflexivity).
  destruct (calcular_rtc float_of_decimal format_2f ONLINE_URL
              (dated_net "2027-01-01T12:00:00-03:00" two_objects_response)
              "2026-11-03T09:00:00-03:00" example_nota) as [d|st] eqn:Hrun;
    [|discriminate H].
  destruct (cd_transicao d) as [|first rest] eqn:Hfirst; [discriminate H|].
  injection H as Hano _.
  destruct (resultado2026_is_first_returned_year _ _ _ _ _ _ _ _ _
              Hrun Hfirst) as [Hobjs _].
  exists d, first, rest. auto.
Defined.

(** ** What is sent to the calculator *)

(** X19.  The base payload of both endpoints has exactly the five keys
    [id], [versao], [dataHoraEmissao], [municipio] and [uf]: the legacy
    baseline of the request is never sent, and the date of the request is
    replaced by the current date.  The lines that are sent carry neither
    [descricao] nor [nbs] and are otherwise the lines of the request; the
    lines that [calcular_rtc] sends are those, numbered by position. *)
Theorem payload_hygiene now nota :
  _base_payload now (nota_dict nota)
  = {[ "id" := JStr (nf_id nota); "versao" := JStr (nf_versao nota);
       "dataHoraEmissao" := JStr now; "municipio" := JInt (nf_municipio nota);
       "uf" := JStr (nf_uf nota) ]}
  /\ forall k i, nf_itens nota !! k = Some i ->
       exists m,
         payload_itens nota !! k = Some m
         /\ m !! "descricao" = None /\ m !! "nbs" = None
         /\ (forall key, key <> "descricao" -> key <> "nbs" ->
               m !! key = dump_item i !! key)
         /\ renumber_payload 0 (payload_itens nota) !! k
            = Some (JObj (<["numero" := JInt (Z.of_nat k + 1)]> m)).
Proof.
  split.
  - unfold _base_payload, nota_dict, dump_nota.
    rewrite delete_insert_eq.
    assert (forall v (m : gmap string json),
              delete "tributosAtuais" (put_opt "tributosAtuais" v m)
              = delete "tributosAtuais" m) as ->.
    { intros [j|] m; simpl; [apply delete_insert_eq | reflexivity]. }
    rewrite !(delete_insert_ne _ "tributosAtuais") by discriminate.
    rewrite delete_singleton_ne by discriminate.
    rewrite !(delete_insert_ne _ "itens") by discriminate.
    rewrite delete_singleton_eq.
    rewrite (insert_insert_ne _ "dataHoraEmissao" "id") by discriminate.
    rewrite (insert_insert_ne _ "dataHoraEmissao" "versao") by discriminate.
    by rewrite insert_insert_eq.
  - intros k i Hi. exists (strip_item (dump_item i)).
    assert (Hk : payload_itens nota !! k = Some (strip_item (dump_item i))).
    { unfold payload_itens. by rewrite list_lookup_fmap, Hi. }
    split; [exact Hk|]. unfold strip_item.
    split; [|split; [|split]].
    + rewrite lookup_delete_ne by discriminate. apply lookup_delete_eq.
    + apply lookup_delete_eq.
    + intros key H1 H2. by rewrite !lookup_delete_ne by congruence.
    + clear Hi. revert Hk. generalize (payload_itens nota). intros l.
      assert (forall idx, l !! k = Some (strip_item (dump_item i)) ->
                renumber_payload idx l !! k
                = Some (JObj (<["numero" := JInt (idx + Z.of_nat k + 1)]>
                                (strip_item (dump_item i))))) as Hgen.
      { revert k. induction l as [|a l IH]; intros k idx Hk; [discriminate|].
        destruct k as [|k]; simpl in *.
        - injection Hk as ->. by rewrite Z.add_0_r.
        - rewrite (IH _ _ Hk). do 4 f_equal. lia. }
      intros Hk. by rewrite (Hgen 0 Hk).
Qed.

(** The first line of [example_nota], which has a description and an
    [nbs], as it is sent by [calcular_rtc]. *)
Lemma payload_hygiene_witness :
  exists m,
    renumber_payload 0 (payload_itens example_nota) !! 0%nat
    = Some (JObj (<["numero" := JInt 1]> m))
    /\ m !! "descricao" = None /\ m !! "nbs" = None
    /\ m !! "ncm" = Some (JStr "2401.10.00").
Proof.
  destruct (proj2 (payload_hygiene "" example_nota) 0%nat cigarettes eq_refl)
    as (m & _ & Hd & Hn & Hkeys & Hnum).
  exists m. repeat split; try done.
  rewrite Hkeys by discriminate. reflexivity.
Defined.

(** X20.  The legacy baseline that the two endpoints hand to the services
    is read under the keys that the services look up: the ICMS family is
    [vICMS + vST + vISS], PIS/COFINS is [vPIS + vCOFINS] and IPI is [vIPI]
    of the request, and a request without [tributosAtuais] gives zeros. *)
Theorem baseline_of_request nota :
  legacy_base (tributos_atuais_of nota)
  = match nf_tributosAtuais nota with
    | Some t => {| v_icms := ta_vICMS t + ta_vST t + ta_vISS t;
                   v_pisCofins := ta_vPIS t + ta_vCOFINS t;
                   v_ipi := ta_vIPI t |}
    | None => {| v_icms := 0; v_pisCofins := 0; v_ipi := 0 |}
    end%float.
Proof.
  unfold tributos_atuais_of. destruct (nf_tributosAtuais nota) as [t|];
    reflexivity.
Qed.

(** ** The lookups and the XML route *)

Lemma try_hosts_last {A} (attempt : string -> res A) url last_error :
  try_hosts attempt [url] last_error = attempt url.
Proof.
  simpl. destruct (attempt url) as [a|e]; [reflexivity|].
  destruct e; reflexivity.
Qed.

Lemma try_hosts_two {A} (attempt : string -> res A) host :
  try_hosts attempt (hosts host) ConnectError
  = match attempt host with
    | Raise ConnectError | Raise TimeoutException =>
        if decide (host = LOCAL_URL) then attempt host else attempt LOCAL_URL
    | r => r
    end.
Proof.
  unfold hosts. destruct (decide (host = LOCAL_URL)) as [Heq|Hne].
  - rewrite try_hosts_last. destruct (attempt host) as [a|[]]; reflexivity.
  - cbn [try_hosts]. destruct (attempt host) as [a|e]; [reflexivity|].
    destruct e; try reflexivity;
      [ exact (try_hosts_last attempt LOCAL_URL ConnectError)
      | exact (try_hosts_last attempt LOCAL_URL TimeoutException) ].
Qed.






(** X22.  [POST /api/gerar-xml], when the first host answers: a response
    whose content type contains [xml] is served as text with the media type
    [application/xml], and its body is never decoded; of any other response
    the body is decoded, and a body that is a bare JSON string is served as
    [application/xml] as well, any other JSON value being wrapped in
    [{"success": true, "data": ...}]; a body that cannot be decoded gives
    the status 500. *)
Theorem gerar_xml_route_bodies host send payload resp :
  send (host +:+ "/api/calculadora/xml/generate") payload = Ok resp ->
  let served := gerar_xml_route host send payload in
  (str_contains "xml" (content_type resp) = true ->
   served = Success (PlainTextResponse (text resp) "application/xml"))
  /\ (str_contains "xml" (content_type resp) = false ->
      (forall s, json_body resp = Ok (JStr s) ->
         served = Success (PlainTextResponse s "application/xml"))
      /\ (forall j, json_body resp = Ok j -> (forall s, j <> JStr s) ->
            served = Success (JsonBody (JObj {[ "success" := JBool true;
                                                "data" := j ]})))
      /\ (json_body resp = Raise JSONDecodeError ->
          served = HTTPException (Code 500))).
Proof.
  intros Hsend served. subst served. unfold gerar_xml_route, gerar_xml.
  rewrite try_hosts_two, Hsend. cbn [mbind res_bind].
  split; [intros -> | intros ->]; [reflexivity|].
  split; [|split].
  - by intros s ->.
  - intros j -> Hj. destruct j; try reflexivity. by destruct (Hj s).
  - by intros ->.
Qed.

(** An XML document is served as it is; a JSON body that is the string
    [pending] is served as XML too. *)
Lemma gerar_xml_route_bodies_witness :
  gerar_xml_route ONLINE_URL (fun _ _ => Ok xml_answer) JNull
  = Success (PlainTextResponse "<NFe/>" "application/xml")
  /\ gerar_xml_route ONLINE_URL (fun _ _ => Ok string_answer) JNull
     = Success (PlainTextResponse "pending" "application/xml").
Proof.
  split.
  - exact (proj1 (gerar_xml_route_bodies ONLINE_URL (fun _ _ => Ok xml_answer)
                    JNull xml_answer eq_refl) eq_refl).
  - exact (proj1 (proj2 (gerar_xml_route_bodies ONLINE_URL
                           (fun _ _ => Ok string_answer) JNull string_answer
                           eq_refl) eq_refl) "pending" eq_refl).
Defined.
